(** * Upload-and-result clients of the startup evaluation platform

    A shallow embedding of the two React clients of the repository,

    - [StartupEvaluator]  (src/frontend/StartupEvaluator.tsx), and
    - [App]               (the sibling client with [BACKEND_URL], [handleUpload]
                           and [resetUpload]),

    together with the statements of the specification about them.

    Component state ([useState] cells) is a record that the event handlers
    transform.  An [async] handler is a computation in a small monad that
    threads the component state, may throw, and records what the outside
    world can observe: every suspension point ([await] of a timer or of the
    network call) with the component state the handler has reached there. *)

From Stdlib Require Import ZArith QArith Qround Qabs String Ascii List Bool Lia.
From Stdlib Require Import DecimalString Lqa.
Import ListNotations.

Open Scope string_scope.

(* ================================================================== *)
(** * JavaScript values used by the clients *)
(* ================================================================== *)

Module JS.

(** ** Numbers

    A JavaScript [number] is an IEEE double.  Every finite double is a
    rational, and the operations the clients use ([>=], truthiness,
    [toFixed]) are defined by ECMAScript on that mathematical value, so a
    finite number is carried as a [Q].  [-0] is identified with [0]: both are
    falsy and compare alike. *)
Inductive number : Type :=
| NaN
| Infinity (negative : bool)
| Finite (q : Q).

Definition of_Z (z : Z) : number := Finite (inject_Z z).

(** ** Optional properties: [undefined], [null], or a value *)
Inductive opt (A : Type) : Type :=
| undefined
| null
| val (a : A).
Arguments undefined {A}.
Arguments null {A}.
Arguments val {A} a.

(** [absent o]: the property is [null] or [undefined]. *)
Definition absent {A} (o : opt A) : Prop :=
  match o with val _ => False | _ => True end.

(** ** Truthiness ([!x], [x && y], [x || y]) *)
Definition number_truthy (n : number) : bool :=
  match n with
  | NaN => false
  | Infinity _ => true
  | Finite q => negb (Qeq_bool q 0)
  end.

Definition string_truthy (s : string) : bool := negb (s =? "").

Definition opt_truthy {A} (truthy : A -> bool) (o : opt A) : bool :=
  match o with
  | val a => truthy a
  | _ => false
  end.

(** [o != null], as tested by [?.] and by [if (x)] on an object. *)
Definition is_val {A} (o : opt A) : bool :=
  match o with val _ => true | _ => false end.

(** ** Comparison [x >= y] (false as soon as one side is [NaN]) *)
Definition ge (x y : number) : bool :=
  match x, y with
  | NaN, _ | _, NaN => false
  | Infinity false, _ => true
  | _, Infinity true => true
  | Infinity true, _ => false
  | _, Infinity false => false
  | Finite a, Finite b => Qle_bool b a
  end.

(** ** Strings

    Strings are sequences of bytes (UTF-8).  [toLowerCase] below maps [A-Z]
    to [a-z] and leaves the other bytes alone.  It is used where the result
    is only compared with the labels [low], [medium], [medium-high] and
    [high]: no character outside [A-Z] lower-cases to one of the letters of
    these labels, so on every string the comparison has the outcome it has
    in JavaScript.  Text that is displayed after a case mapping goes through
    the mappings of the host, see [Host]. *)
Definition lower_ascii (c : ascii) : ascii :=
  let n := nat_of_ascii c in
  if (65 <=? n)%nat && (n <=? 90)%nat then ascii_of_nat (n + 32) else c.

Fixpoint toLowerCase (s : string) : string :=
  match s with
  | EmptyString => EmptyString
  | String c r => String (lower_ascii c) (toLowerCase r)
  end.

Definition startsWith (s p : string) : bool := String.prefix p s.

Fixpoint includes (s sub : string) : bool :=
  String.prefix sub s ||
  match s with
  | EmptyString => false
  | String _ r => includes r sub
  end.

(** [a || b] on strings. *)
Definition or_string (a : opt string) (b : string) : string :=
  match a with
  | val s => if string_truthy s then s else b
  | _ => b
  end.

(** ** The host runtime

    Conversions of numbers and dates to text that depend on the shortest
    round-trip digits of a double or on the locale, and the Unicode case
    mappings of strings, are an interface of the runtime. *)
Class Host : Type := {
  (** [s.toUpperCase()] *)
  String_toUpperCase : string -> string;
  (** [s.toLowerCase()] *)
  String_toLowerCase : string -> string;
  (** [String(n)], as in a template literal *)
  Number_toString : number -> string;
  (** [n.toLocaleString()] *)
  Number_toLocaleString : number -> string;
  (** [new Date(s).toLocaleString()] *)
  Date_toLocaleString : string -> string
}.

(** ** [Number.prototype.toFixed] *)

Definition digits (n : Z) : string :=
  NilZero.string_of_uint (N.to_uint (Z.to_N n)).

Fixpoint zeros (k : nat) : string :=
  match k with
  | O => ""
  | S k' => String "0" (zeros k')
  end.

Definition pow10 (f : nat) : Z := (10 ^ Z.of_nat f)%Z.

(** For [0 <= x < 10^21]: the integer [n] with [n / 10^f] closest to [x]
    (the larger one on a tie), written with [f] digits after the point. *)
Definition toFixed_digits (x : Q) (f : nat) : string :=
  let n := Qfloor (x * inject_Z (pow10 f) + (1 # 2)) in
  let m := digits n in
  if (f =? 0)%nat then m
  else
    let k := String.length m in
    let m := if (k <=? f)%nat then zeros (f + 1 - k) ++ m else m in
    let k := String.length m in
    substring 0 (k - f) m ++ "." ++ substring (k - f) f m.

Definition toFixed_abs `{Host} (x : Q) (f : nat) : string :=
  if Qle_bool (inject_Z (pow10 21)) x then Number_toString (Finite x)
  else toFixed_digits x f.

Definition toFixed `{Host} (x : number) (f : nat) : string :=
  match x with
  | NaN => "NaN"
  | Infinity false => "Infinity"
  | Infinity true => "-Infinity"
  | Finite q =>
      if Qlt_le_dec q 0 then "-" ++ toFixed_abs (Qopp q) f
      else toFixed_abs q f
  end.

End JS.
Import JS.


(* ================================================================== *)
(** * Event handlers as computations *)
(* ================================================================== *)

Module Handler.

(** ** Files, requests and what axios reports *)

Record File : Type := {
  name : string;
  type : string;        (* the MIME type *)
  size : Z
}.

(** [axios.post(url, formData, { headers, timeout })] *)
Record Request : Type := {
  url : string;
  formData : list (string * File);
  headers : list (string * string);
  timeout : Z
}.

Record ErrorData : Type := { detail : opt string }.

Record ErrorResponse : Type := {
  status : Z;
  data : opt ErrorData
}.

(** The object a rejected [axios.post] throws. *)
Record AxiosError : Type := {
  code : opt string;
  message : opt string;
  response : opt ErrorResponse
}.

(** What the network does with a request: how long it takes, and whether
    it ends in a rejection or in a response whose body is of the declared
    type [D]. *)
Record NetReply (D : Type) : Type := {
  latency : Z;
  outcome : AxiosError + D
}.
Arguments latency {D} _.
Arguments outcome {D} _.

Definition Network (D : Type) : Type := Request -> NetReply D.

(** axios aborts a request whose [timeout] (in ms, [0] meaning none) has
    elapsed and rejects with this error. *)
Definition timeoutError (ms : Z) : AxiosError :=
  {| code := val "ECONNABORTED";
     message := val ("timeout of " ++ digits ms ++ "ms exceeded");
     response := undefined |}.

(** How the promise of [axios.post] settles: rejected with the timeout
    error when the answer does not come before the timeout, and as the
    network says otherwise. *)
Definition settle {D} (net : Network D) (req : Request) : AxiosError + D :=
  if (0 <? timeout req)%Z && (timeout req <=? latency (net req))%Z
  then inl (timeoutError (timeout req))
  else outcome (net req).

(** How a handler ends: normally, or by throwing. *)
Inductive Outcome (A : Type) : Type :=
| Done (a : A)
| Throw (e : AxiosError).
Arguments Done {A} a.
Arguments Throw {A} e.

Section Monad.

Context {S : Type}.

(** What a handler does besides updating the state.  An [Await...] event is
    a suspension point of an [async] handler; [shown] is the component state
    as the handler has left it when it suspends there.  Until the handler
    resumes, other handlers can run and write the cells they write; the
    cells that only this handler writes are then still as in [shown]. *)
Inductive Event : Type :=
| AwaitTimer (ms : Z) (shown : S)
| AwaitPost (req : Request) (shown : S)
| ConsoleError (label : string) (e : AxiosError)
| PreventDefault
| StopPropagation.

Definition M (A : Type) : Type :=
  S -> list Event -> Outcome A * S * list Event.

Definition ret {A} (a : A) : M A := fun st tr => (Done a, st, tr).

Definition bind {A B} (m : M A) (k : A -> M B) : M B :=
  fun st tr =>
    match m st tr with
    | (Done a, st', tr') => k a st' tr'
    | (Throw e, st', tr') => (Throw e, st', tr')
    end.

Definition throw {A} (e : AxiosError) : M A := fun st tr => (Throw e, st, tr).

(** A state setter ([setFile], [setError], ...). *)
Definition set (f : S -> S) : M unit := fun st tr => (Done tt, f st, tr).

Definition emit (ev : Event) : M unit := fun st tr => (Done tt, st, (tr ++ [ev])%list).

(** [try { body } catch (e) { handler e } finally { final }] *)
Definition try_catch_finally (body : M unit) (handler : AxiosError -> M unit)
    (final : M unit) : M unit :=
  fun st tr =>
    let r :=
      match body st tr with
      | (Done a, st', tr') => (Done a, st', tr')
      | (Throw e, st', tr') => handler e st' tr'
      end in
    match r with
    | (Done _, st', tr') => final st' tr'
    | (Throw e, st', tr') =>
        match final st' tr' with
        | (Done _, st'', tr'') => (Throw e, st'', tr'')
        | thrown => thrown
        end
    end.

(** [for (let i = lo; ...; i++) body(i)], for [count] iterations. *)
Fixpoint for_count (count : nat) (i : Z) (body : Z -> M unit) : M unit :=
  match count with
  | O => ret tt
  | Datatypes.S count' => bind (body i) (fun _ => for_count count' (i + 1)%Z body)
  end.

(** [for (let i = lo; i <= hi; i++) body(i)] *)
Definition for_upto (lo hi : Z) (body : Z -> M unit) : M unit :=
  for_count (Z.to_nat (hi - lo + 1)) lo body.

(** [await new Promise(resolve => setTimeout(resolve, ms))] *)
Definition sleep (ms : Z) : M unit :=
  fun st tr => (Done tt, st, (tr ++ [AwaitTimer ms st])%list).

(** [await axios.post(...)]: the handler is suspended until the promise
    settles, and resumes with the response body or with the thrown error. *)
Definition axios_post {D} (net : Network D) (req : Request) : M D :=
  fun st tr =>
    let tr' := (tr ++ [AwaitPost req st])%list in
    match settle net req with
    | inl e => (Throw e, st, tr')
    | inr d => (Done d, st, tr')
    end.

(** Running a handler from a state, with an empty trace. *)
Definition run {A} (m : M A) (st : S) : Outcome A * S * list Event := m st [].
Definition final_state {A} (m : M A) (st : S) : S := snd (fst (run m st)).
Definition trace {A} (m : M A) (st : S) : list Event := snd (run m st).

End Monad.

Arguments Event : clear implicits.
Arguments M : clear implicits.

Declare Scope handler_scope.
Delimit Scope handler_scope with handler.
Notation "x <- m ;; k" := (bind m (fun x => k))
  (at level 61, m at next level, right associativity) : handler_scope.
Notation "m ;; k" := (bind m (fun _ => k))
  (at level 61, right associativity) : handler_scope.

End Handler.
Import Handler.

(* ================================================================== *)
(** * What a component renders *)
(* ================================================================== *)

Module React.

#[local] Set Warnings "-register-all".

(** A rendered JSX child: text, a number, nothing ([null], [undefined] and
    [false] render nothing), or an element with its class, the props that
    matter for display, and its children. *)
Inductive node : Type :=
| Text (s : string)
| Number (n : number)
| Nothing
| Element (tag className : string) (props : list (string * string))
    (children : list node).

(** An element without display props. *)
Definition el (tag className : string) (children : list node) : node :=
  Element tag className [] children.

(** [{cond && child}] where [cond] is a boolean expression. *)
Definition when (cond : bool) (child : node) : node :=
  if cond then child else Nothing.

(** [{s}] for an optional string. *)
Definition text_of (s : opt string) : node :=
  match s with
  | val s => Text s
  | _ => Nothing
  end.

(** [{n}] for an optional number. *)
Definition number_of (n : opt number) : node :=
  match n with
  | val n => Number n
  | _ => Nothing
  end.

End React.
Import React.

(* ================================================================== *)
(** * The StartupEvaluator component *)
(* ================================================================== *)

Module StartupEvaluator.

Open Scope handler_scope.

(** ** Data model *)

(** A value of [Record<string, any>] as the component uses it. *)
Inductive any : Type :=
| AnyNumber (n : number)
| AnyString (s : string).

Record ExtractedData : Type := {
  company_name : opt string;
  sector : opt string;
  arr_crore : opt number;
  team_size : opt number;
  stage : opt string;
  valuation_pre_money_crore : opt number;
  revenue_model : opt string;
  founders : opt (list string);
  key_metrics : opt (list (string * any))
}.

Record SectorComparison : Type := {
  arr_percentile : opt number;
  performance_tier : opt string;
  team_efficiency : opt number
}.

Record RiskAssessment : Type := {
  overall_risk_score : opt number;
  risk_level : opt string;
  red_flags : opt (list string);
  recommendations : opt (list string)
}.

Record EvaluationResult : Type := {
  startup_id : string;
  timestamp : string;
  extracted_data : ExtractedData;
  sector_comparison : SectorComparison;
  risk_assessment : RiskAssessment;
  investment_score : number;
  investment_recommendation : opt string
}.

(** ** Component state: the seven [useState] cells *)
Record State : Type := {
  file : opt File;
  evaluation : opt EvaluationResult;
  loading : bool;
  error : opt string;
  dragActive : bool;
  processingStep : Z;
  showSampleData : bool
}.

Definition initial : State :=
  {| file := null; evaluation := null; loading := false; error := null;
     dragActive := false; processingStep := 0; showSampleData := true |}.

Definition setFile (v : opt File) (st : State) : State :=
  {| file := v; evaluation := evaluation st; loading := loading st;
     error := error st; dragActive := dragActive st;
     processingStep := processingStep st;
     showSampleData := showSampleData st |}.

Definition setEvaluation (v : opt EvaluationResult) (st : State) : State :=
  {| file := file st; evaluation := v; loading := loading st;
     error := error st; dragActive := dragActive st;
     processingStep := processingStep st;
     showSampleData := showSampleData st |}.

Definition setLoading (v : bool) (st : State) : State :=
  {| file := file st; evaluation := evaluation st; loading := v;
     error := error st; dragActive := dragActive st;
     processingStep := processingStep st;
     showSampleData := showSampleData st |}.

Definition setError (v : opt string) (st : State) : State :=
  {| file := file st; evaluation := evaluation st; loading := loading st;
     error := v; dragActive := dragActive st;
     processingStep := processingStep st;
     showSampleData := showSampleData st |}.

Definition setDragActive (v : bool) (st : State) : State :=
  {| file := file st; evaluation := evaluation st; loading := loading st;
     error := error st; dragActive := v;
     processingStep := processingStep st;
     showSampleData := showSampleData st |}.

Definition setProcessingStep (v : Z) (st : State) : State :=
  {| file := file st; evaluation := evaluation st; loading := loading st;
     error := error st; dragActive := dragActive st;
     processingStep := v;
     showSampleData := showSampleData st |}.

Definition setShowSampleData (v : bool) (st : State) : State :=
  {| file := file st; evaluation := evaluation st; loading := loading st;
     error := error st; dragActive := dragActive st;
     processingStep := processingStep st;
     showSampleData := v |}.

(** ** Sample evaluations

    [now] is [new Date().toISOString()] at the time of the render.  A
    decimal literal stands for the rational it denotes. *)
Definition sampleEvaluations (now : string) : list EvaluationResult :=
  [ {| startup_id := "we360ai";
       timestamp := now;
       extracted_data :=
         {| company_name := val "We360.ai";
            sector := val "SaaS/Productivity";
            arr_crore := val (Finite (68 # 10));
            team_size := val (of_Z 33);
            stage := val "Pre-Series A";
            valuation_pre_money_crore := null;
            revenue_model := val "B2B SaaS Subscription";
            founders := val ["Founder 1"; "Founder 2"];
            key_metrics :=
              val [ ("paid_users", AnyNumber (of_Z 28000));
                    ("retention_rate", AnyNumber (of_Z 96));
                    ("gross_margin", AnyNumber (of_Z 90));
                    ("growth_rate", AnyNumber (of_Z 66)) ] |};
       sector_comparison :=
         {| arr_percentile := val (of_Z 85);
            performance_tier := val "Top Performer";
            team_efficiency := val (Finite (206 # 1000)) |};
       risk_assessment :=
         {| overall_risk_score := val (of_Z 25);
            risk_level := val "Low";
            red_flags := val [];
            recommendations :=
              val [ "📋 Continue international expansion strategy";
                    "📋 Maintain high retention rates above 95%";
                    "📋 Scale enterprise segment offerings" ] |};
       investment_score := of_Z 88;
       investment_recommendation :=
         val "✅ **STRONG RECOMMEND** - Excellent SaaS metrics with 96% retention, 6.8Cr ARR, and profitable growth trajectory." |};
    {| startup_id := "drdoodley";
       timestamp := now;
       extracted_data :=
         {| company_name := val "Dr. Doodley";
            sector := val "HealthTech/Pet Care";
            arr_crore := null;
            team_size := val (of_Z 40);
            stage := val "Seed";
            valuation_pre_money_crore := undefined;
            revenue_model := val "Home visits, Hospital care, Diagnostics";
            founders := val ["Founder A"; "Founder B"];
            key_metrics :=
              val [ ("revenue_6m", AnyNumber (Finite (165 # 100)));
                    ("pets_treated", AnyNumber (of_Z 2050));
                    ("hospitals", AnyNumber (of_Z 2));
                    ("doctors", AnyNumber (of_Z 12)) ] |};
       sector_comparison :=
         {| arr_percentile := val (of_Z 45);
            performance_tier := val "Average";
            team_efficiency := null |};
       risk_assessment :=
         {| overall_risk_score := val (of_Z 45);
            risk_level := val "Medium";
            red_flags :=
              val [ "⚠️ Capital intensive hospital model";
                    "⚠️ Limited scalability of home visits" ];
            recommendations :=
              val [ "📋 Validate unit economics per hospital";
                    "📋 Optimize home visit efficiency" ] |};
       investment_score := of_Z 58;
       investment_recommendation :=
         val "🟡 **CONDITIONAL RECOMMEND** - Innovative pet healthcare model with good early traction, but scalability validation needed." |};
    {| startup_id := "cashvisory";
       timestamp := now;
       extracted_data :=
         {| company_name := val "Cashvisory";
            sector := val "FinTech";
            arr_crore := val (Finite 0);
            team_size := val (of_Z 5);
            stage := val "Pre-Seed";
            valuation_pre_money_crore := val (of_Z 8);
            revenue_model := val "Advisory subscription, Insurance distribution";
            founders := val ["Founder X"; "Founder Y"];
            key_metrics :=
              val [ ("users_acquired", AnyNumber (of_Z 13000));
                    ("total_aum", AnyNumber (Finite (128 # 10)));
                    ("ltv", AnyNumber (of_Z 13000));
                    ("cac", AnyNumber (of_Z 1000)) ] |};
       sector_comparison :=
         {| arr_percentile := val (of_Z 25);
            performance_tier := val "Early Stage";
            team_efficiency := val (Finite 0) |};
       risk_assessment :=
         {| overall_risk_score := val (of_Z 65);
            risk_level := val "Medium-High";
            red_flags :=
              val [ "🔴 No current ARR despite 13K users";
                    "🔴 Pre-revenue stage with high valuation" ];
            recommendations :=
              val [ "📋 Focus on user monetization strategy";
                    "📋 Validate revenue model with paying customers" ] |};
       investment_score := of_Z 42;
       investment_recommendation :=
         val "🟡 **PROCEED WITH CAUTION** - Early stage fintech with strong user base but no revenue. Requires clear monetization plan." |} ].

Record ProcessingStep : Type := {
  step : Z;
  title : string;
  icon : string
}.

Definition processingSteps : list ProcessingStep :=
  [ {| step := 1; title := "Uploading to Cloud Storage"; icon := "📤" |};
    {| step := 2; title := "Extracting text with Cloud Vision"; icon := "👁️" |};
    {| step := 3; title := "Processing with Gemini AI"; icon := "🤖" |};
    {| step := 4; title := "Calculating investment score"; icon := "📊" |};
    {| step := 5; title := "Storing in BigQuery"; icon := "💾" |} ].

(** ** Build-time configuration ([process.env]) *)
Record ProcessEnv : Type := {
  REACT_APP_MCP_SERVER_URL : opt string;
  NODE_ENV : opt string
}.

Definition MCP_SERVER_URL (env : ProcessEnv) : string :=
  or_string (REACT_APP_MCP_SERVER_URL env)
    (match NODE_ENV env with
     | val m => if m =? "development" then "http://localhost:8080"
                else "YOUR_MCP_SERVER_URL"
     | _ => "YOUR_MCP_SERVER_URL"
     end).

(** ** File upload handling *)

(** [error.response?.data?.detail] *)
Definition response_data_detail (error : AxiosError) : opt string :=
  match response error with
  | val r => match data r with
             | val d => detail d
             | _ => undefined
             end
  | _ => undefined
  end.

(** [error.response?.status === n] *)
Definition response_status_is (error : AxiosError) (n : Z) : bool :=
  match response error with
  | val r => (status r =? n)%Z
  | _ => false
  end.

(** The message the [catch] block of [handleFileUpload] computes. *)
Definition errorMessage (error : AxiosError) : string :=
  let errorMessage := "Evaluation failed. Please try again." in
  if match code error with val c => c =? "ECONNREFUSED" | _ => false end then
    "Cannot connect to the server. Please check if the backend is running."
  else if response_status_is error 401 then
    "Authentication failed. Please check your credentials."
  else if response_status_is error 413 then
    "File too large. Please upload a file smaller than 10MB."
  else if opt_truthy string_truthy (response_data_detail error) then
    or_string (response_data_detail error) errorMessage
  else if opt_truthy string_truthy (message error) then
    or_string (message error) errorMessage
  else errorMessage.

(** The request [handleFileUpload] posts for file [f]. *)
Definition uploadRequest (env : ProcessEnv) (f : File) : Request :=
  let formData := [("file", f)] in
  {| url := MCP_SERVER_URL env ++ "/evaluate";
     formData := formData;
     headers := [ ("Authorization", "Bearer demo-token-2025");
                  ("Content-Type", "multipart/form-data") ];
     timeout := 120000 |}.

(** [handleFileUpload] is re-created whenever [file] changes
    ([useCallback(..., [file])]), so the [file] it closes over is the one of
    the state it is invoked in. *)
Definition handleFileUpload (env : ProcessEnv) (net : Network EvaluationResult)
    (file : opt File) : M State unit :=
  match file with
  | val f =>
      set (setLoading true) ;;
      set (setError null) ;;
      set (setProcessingStep 0) ;;
      try_catch_finally
        ((* Simulate processing steps *)
         for_upto 1 5 (fun i =>
           set (setProcessingStep i) ;;
           sleep 1000) ;;
         response <- axios_post net (uploadRequest env f) ;;
         set (setEvaluation (val response)) ;;
         set (setShowSampleData false))
        (fun error =>
           emit (ConsoleError "Evaluation failed:" error) ;;
           set (setError (val (errorMessage error))))
        (set (setLoading false) ;;
         set (setProcessingStep 0))
  | _ =>
      set (setError (val "Please select a file to upload"))
  end.

(** Clicking the upload button in state [st]. *)
Definition submit (env : ProcessEnv) (net : Network EvaluationResult)
    (st : State) : Outcome unit * State * list (Event State) :=
  run (handleFileUpload env net (file st)) st.

(** ** Drag and drop handlers *)

Definition handleDrag (e_type : string) : M State unit :=
  emit PreventDefault ;;
  emit StopPropagation ;;
  if (e_type =? "dragenter") || (e_type =? "dragover") then
    set (setDragActive true)
  else if e_type =? "dragleave" then
    set (setDragActive false)
  else ret tt.

(** [files] is [e.dataTransfer.files]; [files[0]] is its first element. *)
Definition handleDrop (files : opt (list File)) : M State unit :=
  emit PreventDefault ;;
  emit StopPropagation ;;
  set (setDragActive false) ;;
  match files with
  | val (droppedFile :: _) =>
      if (type droppedFile =? "application/pdf")
         || startsWith (type droppedFile) "image/" then
        set (setFile (val droppedFile)) ;;
        set (setError null)
      else
        set (setError (val "Please upload a PDF or image file"))
  | _ => ret tt
  end.

(** [files] is [e.target.files]. *)
Definition handleFileChange (files : opt (list File)) : M State unit :=
  match files with
  | val (f :: _) =>
      set (setFile (val f)) ;;
      set (setError null)
  | _ => ret tt
  end.

(** ** Utility functions *)

Definition getScoreColor (score : number) : string :=
  if ge score (of_Z 80) then "#34A853"
  else if ge score (of_Z 60) then "#FBBC04"
  else if ge score (of_Z 40) then "#FF9800"
  else "#EA4335".

(** [riskLevel?.toLowerCase()] is [undefined] for a [null] or [undefined]
    argument, which matches no [case]. *)
Definition getRiskLevelColor (riskLevel : opt string) : string :=
  match riskLevel with
  | val s =>
      let l := toLowerCase s in
      if l =? "low" then "#34A853"
      else if l =? "medium" then "#FBBC04"
      else if l =? "medium-high" then "#FF9800"
      else if l =? "high" then "#EA4335"
      else "#9AA0A6"
  | _ => "#9AA0A6"
  end.

Definition formatCurrency `{Host} (value : opt number) : string :=
  match value with
  | val v => if number_truthy v then "₹" ++ toFixed v 1 ++ "Cr" else "N/A"
  | _ => "N/A"
  end.

Definition viewSampleEvaluation (sampleEvaluation : EvaluationResult)
  : M State unit :=
  set (setEvaluation (val sampleEvaluation)) ;;
  set (setShowSampleData false).

(** The [onClick] of the "Back to Upload" button of the results section. *)
Definition back_btn_onClick : M State unit :=
  set (setEvaluation null) ;;
  set (setShowSampleData true) ;;
  set (setFile null).


(** ** Rendering *)

(** [key.replace(/_/g, ' ')] *)
Fixpoint replace_underscores (key : string) : string :=
  match key with
  | EmptyString => EmptyString
  | String c r =>
      String (if Ascii.eqb c "_" then " "%char else c) (replace_underscores r)
  end.

(** [key.replace(/_/g, ' ').toUpperCase()] *)
Definition metric_label `{Host} (key : string) : string :=
  String_toUpperCase (replace_underscores key).

Definition file_drop_zone `{Host} (st : State) : node :=
  el "div"
    ("file-drop-zone " ++ (if dragActive st then "drag-active" else ""))
    [ Element "input" "file-input"
        [("type", "file"); ("accept", ".pdf,image/*")] [];
      el "div" "upload-icon" [Text "📄"];
      el "div" "upload-text"
        [ match file st with
          | val f =>
              el "div" "file-selected"
                [ el "strong" "" [Text (name f)];
                  el "span" "file-size"
                    [ Text "(";
                      Text (toFixed
                              (Finite (inject_Z (size f) / 1024 / 1024)) 1);
                      Text " MB)" ] ]
          | _ =>
              el "div" ""
                [ el "strong" "" [Text "Click to upload or drag and drop"];
                  el "br" "" [];
                  Text "PDF, JPEG, PNG files (Max 10MB)" ]
          end ] ].

Definition upload_btn (st : State) : node :=
  Element "button" "upload-btn"
    [("disabled", if negb (is_val (file st)) || loading st
                  then "true" else "false")]
    [ Text (if loading st then "⏳ Processing..." else "🚀 Start AI Analysis") ].

Definition processing_step (processingStep : Z) (step : ProcessingStep)
  : node :=
  el "div"
    ("processing-step "
       ++ (if (step.(StartupEvaluator.step) <=? processingStep)%Z
           then "active" else "")
       ++ " "
       ++ (if (processingStep =? step.(StartupEvaluator.step))%Z
           then "current" else ""))
    [ el "div" "step-icon" [Text (icon step)];
      el "div" "step-title" [Text (title step)];
      when (processingStep =? step.(StartupEvaluator.step))%Z
        (el "div" "step-spinner" [Text "⏳"]);
      when (step.(StartupEvaluator.step) <? processingStep)%Z
        (el "div" "step-complete" [Text "✅"]) ].

Definition processing_steps (st : State) : node :=
  when (loading st)
    (el "div" "processing-steps"
       [ el "h3" "" [Text "Processing Pipeline"];
         el "div" "steps-container"
           (map (processing_step (processingStep st)) processingSteps) ]).

(** The error display for the non-empty message [error]. *)
Definition error_section (error : string) : node :=
  el "div" "error-section"
    [ el "div" "error-message"
        [ el "div" "error-icon" [Text "❌"];
          el "div" "error-content"
            [ el "strong" "" [Text "Analysis Failed"];
              el "p" "" [Text error];
              when (includes error "Cannot connect")
                (el "div" "error-help"
                   [ el "p" ""
                       [ el "strong" "" [Text "Development Mode:"];
                         Text " Make sure your backend server is running on localhost:8080" ];
                     el "p" ""
                       [ el "strong" "" [Text "Production Mode:"];
                         Text " Check your REACT_APP_MCP_SERVER_URL environment variable" ] ]) ] ] ].

(** [{error && (...)}]: an empty string renders as itself. *)
Definition error_display (st : State) : node :=
  match error st with
  | val e => if string_truthy e then error_section e else Text e
  | _ => Nothing
  end.

Definition upload_section `{Host} (st : State) : node :=
  el "section" "upload-section"
    [ el "h2" "" [Text "📄 Upload Startup Document"];
      el "p" "" [Text "Upload pitch decks, financial documents, or founder profiles for comprehensive AI analysis"];
      file_drop_zone st;
      upload_btn st;
      processing_steps st;
      error_display st ].

(** [{risk_level || ''}] as passed to [getRiskLevelColor]. *)
Definition risk_level_or_empty (e : EvaluationResult) : opt string :=
  val (or_string (risk_level (risk_assessment e)) "").

Definition sample_card `{Host} (sample : EvaluationResult) : node :=
  el "div" "sample-card"
    [ el "div" "sample-header"
        [ el "h3" "" [text_of (company_name (extracted_data sample))];
          el "span" "sector-tag" [text_of (sector (extracted_data sample))] ];
      el "div" "sample-metrics"
        [ Element "div" "sample-score"
            [("color", getScoreColor (investment_score sample))]
            [ Number (investment_score sample); Text "/100" ];
          Element "div" "sample-risk"
            [("color", getRiskLevelColor (risk_level_or_empty sample))]
            [ text_of (risk_level (risk_assessment sample)); Text " Risk" ] ];
      el "div" "sample-details"
        [ el "span" ""
            [ Text "ARR: ";
              Text (formatCurrency (arr_crore (extracted_data sample))) ];
          el "span" ""
            [ Text "Team: "; number_of (team_size (extracted_data sample)) ];
          el "span" ""
            [ Text "Stage: "; text_of (stage (extracted_data sample)) ] ];
      el "div" "view-analysis-btn" [Text "View Full Analysis →"] ].

(** [{showSampleData && !evaluation && (...)}] *)
Definition sample_data_section `{Host} (now : string) (st : State) : node :=
  when (showSampleData st && negb (is_val (evaluation st)))
    (el "section" "sample-data-section"
       [ el "h2" "" [Text "📊 Sample Analysis Results"];
         el "p" "" [Text "Explore pre-analyzed startups from our dataset. Click on any company to view detailed analysis."];
         el "div" "sample-cards" (map sample_card (sampleEvaluations now)) ]).

Definition score_circle (evaluation : EvaluationResult) : node :=
  Element "div" "score-circle"
    [("backgroundColor", getScoreColor (investment_score evaluation))]
    [ el "span" "score-value" [Number (investment_score evaluation)];
      el "span" "score-max" [Text "/100"] ].

Definition score_card (evaluation : EvaluationResult) : node :=
  el "div" "score-card"
    [ el "div" "company-info"
        [ el "h3" "" [text_of (company_name (extracted_data evaluation))];
          el "div" "company-meta"
            [ el "span" "sector-tag"
                [text_of (sector (extracted_data evaluation))];
              el "span" "stage-tag"
                [text_of (stage (extracted_data evaluation))] ] ];
      el "div" "overall-score"
        [ score_circle evaluation;
          el "div" "score-label" [Text "Investment Score"] ] ].

(** [{arr_percentile || 'N/A'}] *)
Definition arr_percentile_value (evaluation : EvaluationResult) : node :=
  match arr_percentile (sector_comparison evaluation) with
  | val n => if number_truthy n then Number n else Text "N/A"
  | _ => Text "N/A"
  end.

(** [{overall_risk_score?.toFixed(1)}] *)
Definition overall_risk_score_value `{Host} (evaluation : EvaluationResult)
  : node :=
  match overall_risk_score (risk_assessment evaluation) with
  | val n => Text (toFixed n 1)
  | _ => Nothing
  end.

(** [{formatCurrency(arr_crore)}] *)
Definition arr_crore_value `{Host} (evaluation : EvaluationResult) : node :=
  Text (formatCurrency (arr_crore (extracted_data evaluation))).

(** [{team_size}] *)
Definition team_size_value (evaluation : EvaluationResult) : node :=
  number_of (team_size (extracted_data evaluation)).

(** [{team_efficiency?.toFixed(2) || 'N/A'}] *)
Definition team_efficiency_value `{Host} (evaluation : EvaluationResult)
  : node :=
  match team_efficiency (sector_comparison evaluation) with
  | val n =>
      let s := toFixed n 2 in
      if string_truthy s then Text s else Text "N/A"
  | _ => Text "N/A"
  end.

Definition metric_header (icon title : string) : node :=
  el "div" "metric-header"
    [ el "span" "metric-icon" [Text icon];
      el "span" "metric-title" [Text title] ].

Definition metrics_grid `{Host} (evaluation : EvaluationResult) : node :=
  el "div" "metrics-grid"
    [ el "div" "metric-card"
        [ metric_header "📈" "Performance";
          el "div" "metric-value" [arr_percentile_value evaluation; Text "%"];
          el "div" "metric-label" [Text "Sector Percentile"];
          el "div" "metric-subtitle"
            [text_of (performance_tier (sector_comparison evaluation))] ];
      el "div" "metric-card"
        [ metric_header "⚠️" "Risk";
          Element "div" "metric-value risk-badge"
            [("backgroundColor",
              getRiskLevelColor (risk_level_or_empty evaluation))]
            [text_of (risk_level (risk_assessment evaluation))];
          el "div" "metric-label" [Text "Risk Assessment"];
          el "div" "metric-subtitle"
            [Text "Score: "; overall_risk_score_value evaluation] ];
      el "div" "metric-card"
        [ metric_header "💰" "Revenue";
          el "div" "metric-value" [arr_crore_value evaluation];
          el "div" "metric-label" [Text "Annual Recurring Revenue"];
          el "div" "metric-subtitle"
            [ Text "Team: "; team_size_value evaluation; Text " members" ] ];
      el "div" "metric-card"
        [ metric_header "⚡" "Efficiency";
          el "div" "metric-value" [team_efficiency_value evaluation];
          el "div" "metric-label" [Text "ARR per Employee"];
          el "div" "metric-subtitle" [Text "Productivity metric"] ] ].

Definition recommendation_section `{Host} (evaluation : EvaluationResult)
  : node :=
  el "div" "recommendation-section"
    [ el "h3" "" [Text "💡 Investment Recommendation"];
      el "div" "recommendation-content"
        [ el "div" "recommendation-text"
            [ Text
                (or_string (investment_recommendation evaluation)
                   ("Based on our analysis, this startup scores "
                      ++ Number_toString (investment_score evaluation)
                      ++ "/100 with "
                      ++ match risk_level (risk_assessment evaluation) with
                         | val l => String_toLowerCase l
                         | _ => "undefined"
                         end
                      ++ " risk level.")) ] ] ].

(** [{red_flags && red_flags.length > 0 && (...)}] *)
Definition red_flags_section (evaluation : EvaluationResult) : node :=
  match red_flags (risk_assessment evaluation) with
  | val flags =>
      when (0 <? length flags)%nat
        (el "div" "red-flags-section"
           [ el "h3" "" [Text "🚨 Risk Factors & Red Flags"];
             el "div" "red-flags-grid"
               (map (fun flag => el "div" "red-flag-item" [Text flag])
                    flags) ])
  | _ => Nothing
  end.

Fixpoint recommendation_items (index : Z) (recs : list string) : list node :=
  match recs with
  | [] => []
  | rec :: rest =>
      el "div" "recommendation-item"
        [ el "span" "recommendation-number" [Number (of_Z (index + 1))];
          el "span" "recommendation-text" [Text rec] ]
      :: recommendation_items (index + 1) rest
  end.

Definition recommendations_section (evaluation : EvaluationResult) : node :=
  match recommendations (risk_assessment evaluation) with
  | val recs =>
      when (0 <? length recs)%nat
        (el "div" "recommendations-section"
           [ el "h3" "" [Text "📋 Due Diligence Recommendations"];
             el "div" "recommendations-grid" (recommendation_items 0 recs) ])
  | _ => Nothing
  end.

Definition key_metrics_section `{Host} (evaluation : EvaluationResult)
  : node :=
  match key_metrics (extracted_data evaluation) with
  | val metrics =>
      when (0 <? length metrics)%nat
        (el "div" "key-metrics-section"
           [ el "h3" "" [Text "📊 Extracted Key Metrics"];
             el "div" "key-metrics-grid"
               (map (fun kv : string * any =>
                       el "div" "key-metric"
                         [ el "span" "key-metric-label"
                             [Text (metric_label (fst kv))];
                           el "span" "key-metric-value"
                             [ match snd kv with
                               | AnyNumber n => Text (Number_toLocaleString n)
                               | AnyString s => Text s
                               end ] ])
                    metrics) ])
  | _ => Nothing
  end.

(** [{evaluation && (...)}] *)
Definition results_section `{Host} (st : State) : node :=
  match evaluation st with
  | val evaluation =>
      el "section" "results-section"
        [ el "div" "results-header"
            [ el "h2" "" [Text "📊 Analysis Complete"];
              el "div" "analysis-timestamp"
                [ Text "Analyzed on ";
                  Text (Date_toLocaleString (timestamp evaluation)) ];
              el "button" "back-btn" [Text "← Back to Upload"] ];
          score_card evaluation;
          metrics_grid evaluation;
          recommendation_section evaluation;
          red_flags_section evaluation;
          recommendations_section evaluation;
          key_metrics_section evaluation;
          el "div" "startup-id-section"
            [ el "small" "" [Text "Startup ID: "; Text (startup_id evaluation)] ] ]
  | _ => Nothing
  end.

(** The component's output.  The header, the feature cards and the footer
    are constant and carried as empty elements. *)
Definition render `{Host} (now : string) (st : State) : node :=
  el "div" "startup-evaluator"
    [ el "header" "header" [];
      el "section" "features-showcase" [];
      upload_section st;
      sample_data_section now st;
      results_section st;
      el "footer" "footer" [] ].

End StartupEvaluator.

(* ================================================================== *)
(** * The App component (the sibling client, PDF only)

    Its state, its handlers and [getScoreColor]; its JSX is not embedded. *)
(* ================================================================== *)

Module App.

Open Scope handler_scope.

(** ** Data model *)

(** The shape shared by [financial_health], [team_quality],
    [market_opportunity], [product_traction] and [risk_assessment]. *)
Record Scored : Type := {
  score : number;
  details : string
}.

Record PeerComparison : Type := {
  sector_avg : number;
  vs_avg : string
}.

Record EvaluationResult : Type := {
  startup_id : string;
  overall_score : number;
  recommendation : string;
  confidence_level : string;
  financial_health : Scored;
  team_quality : Scored;
  market_opportunity : Scored;
  product_traction : Scored;
  risk_assessment : Scored;
  peer_comparison : PeerComparison;
  realtime_status : string;
  result_error : opt string;      (* the optional [error] property *)
  raw_analysis : string
}.

(** ** Component state: the five [useState] cells, and the value of the
    file input behind [fileInputRef] ([undefined] while [current] is
    [null]). *)
Record State : Type := {
  file : opt File;
  evaluation : opt EvaluationResult;
  loading : bool;
  error : opt string;
  dragActive : bool;
  fileInputValue : opt string
}.

Definition setFile (v : opt File) (st : State) : State :=
  {| file := v; evaluation := evaluation st; loading := loading st;
     error := error st; dragActive := dragActive st;
     fileInputValue := fileInputValue st |}.

Definition setEvaluation (v : opt EvaluationResult) (st : State) : State :=
  {| file := file st; evaluation := v; loading := loading st;
     error := error st; dragActive := dragActive st;
     fileInputValue := fileInputValue st |}.

Definition setLoading (v : bool) (st : State) : State :=
  {| file := file st; evaluation := evaluation st; loading := v;
     error := error st; dragActive := dragActive st;
     fileInputValue := fileInputValue st |}.

Definition setError (v : opt string) (st : State) : State :=
  {| file := file st; evaluation := evaluation st; loading := loading st;
     error := v; dragActive := dragActive st;
     fileInputValue := fileInputValue st |}.

Definition setDragActive (v : bool) (st : State) : State :=
  {| file := file st; evaluation := evaluation st; loading := loading st;
     error := error st; dragActive := v;
     fileInputValue := fileInputValue st |}.

(** [if (fileInputRef.current) fileInputRef.current.value = ''] *)
Definition clearFileInput (st : State) : State :=
  {| file := file st; evaluation := evaluation st; loading := loading st;
     error := error st; dragActive := dragActive st;
     fileInputValue := match fileInputValue st with
                       | val _ => val ""
                       | other => other
                       end |}.

Definition BACKEND_URL : string :=
  "https://startup-evaluator-backend-166437193095.asia-south1.run.app".

(** ** Handlers *)

Definition handleDrag (e_type : string) : M State unit :=
  emit PreventDefault ;;
  emit StopPropagation ;;
  if (e_type =? "dragenter") || (e_type =? "dragover") then
    set (setDragActive true)
  else if e_type =? "dragleave" then
    set (setDragActive false)
  else ret tt.

Definition handleDrop (files : opt (list File)) : M State unit :=
  emit PreventDefault ;;
  emit StopPropagation ;;
  set (setDragActive false) ;;
  match files with
  | val (droppedFile :: _) =>
      if type droppedFile =? "application/pdf" then
        set (setFile (val droppedFile)) ;;
        set (setError null)
      else
        set (setError (val "Please upload a PDF file only."))
  | _ => ret tt
  end.

Definition handleFileSelect (files : opt (list File)) : M State unit :=
  match files with
  | val (selectedFile :: _) =>
      if type selectedFile =? "application/pdf" then
        set (setFile (val selectedFile)) ;;
        set (setError null)
      else
        set (setError (val "Please upload a PDF file only."))
  | _ => ret tt
  end.

(** The request [handleUpload] posts for file [f]. *)
Definition uploadRequest (f : File) : Request :=
  let formData := [("file", f)] in
  {| url := BACKEND_URL ++ "/evaluate-startup";
     formData := formData;
     headers := [ ("Content-Type", "multipart/form-data") ];
     timeout := 120000 |}.

(** [err.response?.data?.detail || 'Failed to process PDF. Please try again.'] *)
Definition uploadErrorMessage (err : AxiosError) : string :=
  or_string
    (match response err with
     | val r => match data r with
                | val d => detail d
                | _ => undefined
                end
     | _ => undefined
     end)
    "Failed to process PDF. Please try again.".

(** [handleUpload] is re-created at every render, so [file] is the one of
    the state it is invoked in. *)
Definition handleUpload (net : Network EvaluationResult) (file : opt File)
  : M State unit :=
  match file with
  | val f =>
      set (setLoading true) ;;
      set (setError null) ;;
      try_catch_finally
        (response <- axios_post net (uploadRequest f) ;;
         set (setEvaluation (val response)))
        (fun err =>
           emit (ConsoleError "Upload error:" err) ;;
           set (setError (val (uploadErrorMessage err))))
        (set (setLoading false))
  | _ =>
      set (setError (val "Please select a PDF file to upload."))
  end.

(** Clicking the upload button in state [st]. *)
Definition submit (net : Network EvaluationResult) (st : State)
  : Outcome unit * State * list (Event State) :=
  run (handleUpload net (file st)) st.

Definition resetUpload : M State unit :=
  set (setFile null) ;;
  set (setEvaluation null) ;;
  set (setError null) ;;
  set clearFileInput.

Definition getScoreColor (score : number) : string :=
  if ge score (of_Z 80) then "#4CAF50"
  else if ge score (of_Z 60) then "#FF9800"
  else "#F44336".

End App.
(* ================================================================== *)
(** * Observations, specifications and example inputs *)
(* ================================================================== *)

Module SE := StartupEvaluator.

(** ** States of the upload handlers *)

(** The state shown while [handleFileUpload] is suspended at stage [i]. *)
Definition busy (st : SE.State) (i : Z) : SE.State :=
  {| SE.file := SE.file st; SE.evaluation := SE.evaluation st;
     SE.loading := true; SE.error := null;
     SE.dragActive := SE.dragActive st; SE.processingStep := i;
     SE.showSampleData := SE.showSampleData st |}.

(** The five timer suspensions of the simulated pipeline. *)
Definition stage_timers (st : SE.State) : list (Event SE.State) :=
  map (fun i => AwaitTimer 1000 (busy st i)) [1; 2; 3; 4; 5]%Z.

Definition succeeded (st : SE.State) (d : SE.EvaluationResult) : SE.State :=
  {| SE.file := SE.file st; SE.evaluation := val d;
     SE.loading := false; SE.error := null;
     SE.dragActive := SE.dragActive st; SE.processingStep := 0;
     SE.showSampleData := false |}.

Definition failed (st : SE.State) (msg : string) : SE.State :=
  {| SE.file := SE.file st; SE.evaluation := SE.evaluation st;
     SE.loading := false; SE.error := val msg;
     SE.dragActive := SE.dragActive st; SE.processingStep := 0;
     SE.showSampleData := SE.showSampleData st |}.

(** The same for [App.handleUpload]. *)
Definition app_busy (st : App.State) : App.State :=
  App.setError null (App.setLoading true st).

Definition app_succeeded (st : App.State) (d : App.EvaluationResult)
  : App.State :=
  App.setLoading false (App.setEvaluation (val d) (app_busy st)).

Definition app_failed (st : App.State) (msg : string) : App.State :=
  App.setLoading false (App.setError (val msg) (app_busy st)).

(** ** Observations on a trace *)

Section Traces.

Context {S : Type}.

(** The requests issued, in order. *)
Fixpoint posts (tr : list (Event S)) : list Request :=
  match tr with
  | [] => []
  | AwaitPost req _ :: rest => req :: posts rest
  | _ :: rest => posts rest
  end.

(** The states the UI shows while a request is outstanding. *)
Fixpoint shown_while_outstanding (tr : list (Event S)) : list S :=
  match tr with
  | [] => []
  | AwaitPost _ shown :: rest => shown :: shown_while_outstanding rest
  | _ :: rest => shown_while_outstanding rest
  end.

(** The timer suspensions that end before the first request is issued,
    with the state shown during each. *)
Fixpoint timers_before_request (tr : list (Event S)) : list (Z * S) :=
  match tr with
  | [] => []
  | AwaitPost _ _ :: _ => []
  | AwaitTimer ms shown :: rest => (ms, shown) :: timers_before_request rest
  | _ :: rest => timers_before_request rest
  end.

Fixpoint timers (tr : list (Event S)) : list (Z * S) :=
  match tr with
  | [] => []
  | AwaitTimer ms shown :: rest => (ms, shown) :: timers rest
  | _ :: rest => timers rest
  end.

(** The timer suspensions that start once the first request has been
    issued. *)
Fixpoint timers_after_request (tr : list (Event S)) : list (Z * S) :=
  match tr with
  | [] => []
  | AwaitPost _ _ :: rest => timers rest
  | _ :: rest => timers_after_request rest
  end.

End Traces.

(** The value of a request header. *)
Fixpoint lookup (k : string) (l : list (string * string)) : option string :=
  match l with
  | [] => None
  | (k', v) :: rest => if k' =? k then Some v else lookup k rest
  end.

Definition header (k : string) (req : Request) : option string :=
  lookup k (headers req).

(** ** Concrete inputs used in the examples *)

Definition deck : File :=
  {| name := "deck.pdf"; type := "application/pdf"; size := 1048576 |}.

Definition notes : File :=
  {| name := "notes.txt"; type := "text/plain"; size := 2048 |}.

Definition dev_env : SE.ProcessEnv :=
  {| SE.REACT_APP_MCP_SERVER_URL := undefined;
     SE.NODE_ENV := val "development" |}.

Definition we360ai : SE.EvaluationResult :=
  nth 0 (SE.sampleEvaluations "2025-01-01T00:00:00.000Z")
    {| SE.startup_id := ""; SE.timestamp := "";
       SE.extracted_data :=
         {| SE.company_name := undefined; SE.sector := undefined;
            SE.arr_crore := undefined; SE.team_size := undefined;
            SE.stage := undefined;
            SE.valuation_pre_money_crore := undefined;
            SE.revenue_model := undefined; SE.founders := undefined;
            SE.key_metrics := undefined |};
       SE.sector_comparison :=
         {| SE.arr_percentile := undefined; SE.performance_tier := undefined;
            SE.team_efficiency := undefined |};
       SE.risk_assessment :=
         {| SE.overall_risk_score := undefined; SE.risk_level := undefined;
            SE.red_flags := undefined; SE.recommendations := undefined |};
       SE.investment_score := of_Z 0;
       SE.investment_recommendation := undefined |}.

(** A network that answers every request after 30 s with [we360ai]. *)
Definition net_ok : Network SE.EvaluationResult :=
  fun _ => {| latency := 30000; outcome := inr we360ai |}.

(** A network that rejects with [e] after 200 ms. *)
Definition net_rejecting {D} (e : AxiosError) : Network D :=
  fun _ => {| latency := 200; outcome := inl e |}.

(** A network that never answers within three minutes. *)
Definition net_slow : Network SE.EvaluationResult :=
  fun _ => {| latency := 180000; outcome := inr we360ai |}.

Definition deck_selected : SE.State := SE.setFile (val deck) SE.initial.

(** The App component as mounted, and after [deck] has been selected. *)
Definition app_initial : App.State :=
  {| App.file := null; App.evaluation := null; App.loading := false;
     App.error := null; App.dragActive := false;
     App.fileInputValue := val "" |}.

Definition app_deck_selected : App.State :=
  App.setFile (val deck) app_initial.

Definition app_result : App.EvaluationResult :=
  let scored := {| App.score := of_Z 70; App.details := "" |} in
  {| App.startup_id := "s-1"; App.overall_score := of_Z 72;
     App.recommendation := "Consider"; App.confidence_level := "High";
     App.financial_health := scored; App.team_quality := scored;
     App.market_opportunity := scored; App.product_traction := scored;
     App.risk_assessment := scored;
     App.peer_comparison :=
       {| App.sector_avg := of_Z 65; App.vs_avg := "+7" |};
     App.realtime_status := "done"; App.result_error := undefined;
     App.raw_analysis := "" |}.

Definition app_net_ok : Network App.EvaluationResult :=
  fun _ => {| latency := 30000; outcome := inr app_result |}.

Definition app_net_slow : Network App.EvaluationResult :=
  fun _ => {| latency := 180000; outcome := inr app_result |}.

Definition drdoodley : SE.EvaluationResult :=
  nth 1 (SE.sampleEvaluations "2025-01-01T00:00:00.000Z") we360ai.

Definition cashvisory : SE.EvaluationResult :=
  nth 2 (SE.sampleEvaluations "2025-01-01T00:00:00.000Z") we360ai.

(** [e] with another [investment_score]. *)
Definition with_investment_score (v : number) (e : SE.EvaluationResult)
  : SE.EvaluationResult :=
  {| SE.startup_id := SE.startup_id e; SE.timestamp := SE.timestamp e;
     SE.extracted_data := SE.extracted_data e;
     SE.sector_comparison := SE.sector_comparison e;
     SE.risk_assessment := SE.risk_assessment e;
     SE.investment_score := v;
     SE.investment_recommendation := SE.investment_recommendation e |}.

(** [e] with another [extracted_data.arr_crore]. *)
Definition with_arr_crore (v : opt number) (e : SE.EvaluationResult)
  : SE.EvaluationResult :=
  let d := SE.extracted_data e in
  {| SE.startup_id := SE.startup_id e; SE.timestamp := SE.timestamp e;
     SE.extracted_data :=
       {| SE.company_name := SE.company_name d; SE.sector := SE.sector d;
          SE.arr_crore := v; SE.team_size := SE.team_size d;
          SE.stage := SE.stage d;
          SE.valuation_pre_money_crore := SE.valuation_pre_money_crore d;
          SE.revenue_model := SE.revenue_model d;
          SE.founders := SE.founders d;
          SE.key_metrics := SE.key_metrics d |};
     SE.sector_comparison := SE.sector_comparison e;
     SE.risk_assessment := SE.risk_assessment e;
     SE.investment_score := SE.investment_score e;
     SE.investment_recommendation := SE.investment_recommendation e |}.

(** [e] with another [extracted_data.team_size]. *)
Definition with_team_size (v : opt number) (e : SE.EvaluationResult)
  : SE.EvaluationResult :=
  let d := SE.extracted_data e in
  {| SE.startup_id := SE.startup_id e; SE.timestamp := SE.timestamp e;
     SE.extracted_data :=
       {| SE.company_name := SE.company_name d; SE.sector := SE.sector d;
          SE.arr_crore := SE.arr_crore d; SE.team_size := v;
          SE.stage := SE.stage d;
          SE.valuation_pre_money_crore := SE.valuation_pre_money_crore d;
          SE.revenue_model := SE.revenue_model d;
          SE.founders := SE.founders d;
          SE.key_metrics := SE.key_metrics d |};
     SE.sector_comparison := SE.sector_comparison e;
     SE.risk_assessment := SE.risk_assessment e;
     SE.investment_score := SE.investment_score e;
     SE.investment_recommendation := SE.investment_recommendation e |}.

(** An answer that carries neither [team_size] nor [overall_risk_score]. *)
Definition answer_without_team_size : SE.EvaluationResult :=
  let e := with_team_size undefined drdoodley in
  {| SE.startup_id := SE.startup_id e; SE.timestamp := SE.timestamp e;
     SE.extracted_data := SE.extracted_data e;
     SE.sector_comparison := SE.sector_comparison e;
     SE.risk_assessment :=
       {| SE.overall_risk_score := undefined;
          SE.risk_level := SE.risk_level (SE.risk_assessment e);
          SE.red_flags := SE.red_flags (SE.risk_assessment e);
          SE.recommendations := SE.recommendations (SE.risk_assessment e) |};
     SE.investment_score := SE.investment_score e;
     SE.investment_recommendation := SE.investment_recommendation e |}.

(** A host for the examples; no statement depends on what it returns. *)
Definition example_host : Host :=
  {| String_toUpperCase := fun s => s;
     String_toLowerCase := fun s => s;
     Number_toString := fun _ => "";
     Number_toLocaleString := fun _ => "";
     Date_toLocaleString := fun s => s |}.

(** A 401 answer that carries a [detail]. *)
Definition unauthorized_with_detail : AxiosError :=
  {| code := val "ERR_BAD_REQUEST";
     message := val "Request failed with status code 401";
     response :=
       val {| status := 401;
              data := val {| detail := val "Token expired" |} |} |}.

(** A 500 answer without a body. *)
Definition server_error : AxiosError :=
  {| code := val "ERR_BAD_RESPONSE";
     message := val "Request failed with status code 500";
     response := val {| status := 500; data := undefined |} |}.

(** A 422 answer that carries a [detail]. *)
Definition unprocessable_with_detail : AxiosError :=
  {| code := val "ERR_BAD_REQUEST";
     message := val "Request failed with status code 422";
     response :=
       val {| status := 422;
              data := val {| detail := val "Unsupported document" |} |} |}.

(** ** Case-insensitive equality of labels

    Stated on character codes, independently of [toLowerCase]: two
    characters are the same letter when they are equal or when one is an
    upper-case letter [A-Z] and the other is 32 above it. *)
Definition is_upper (c : ascii) : Prop :=
  (65 <= nat_of_ascii c <= 90)%nat.

Definition same_letter (a b : ascii) : Prop :=
  a = b
  \/ (is_upper a /\ nat_of_ascii b = nat_of_ascii a + 32)%nat
  \/ (is_upper b /\ nat_of_ascii a = nat_of_ascii b + 32)%nat.

(** The character code of [lower_ascii c]. *)
Definition lower_code (c : ascii) : nat :=
  let n := nat_of_ascii c in
  if (65 <=? n)%nat && (n <=? 90)%nat then (n + 32)%nat else n.

Inductive ci_eq : string -> string -> Prop :=
| ci_eq_empty : ci_eq "" ""
| ci_eq_cons a b s t :
    same_letter a b -> ci_eq s t -> ci_eq (String a s) (String b t).

(** The badge colour the specification gives to a risk level. *)
Inductive risk_color : opt string -> string -> Prop :=
| risk_low s : ci_eq s "Low" -> risk_color (val s) "#34A853"
| risk_medium s : ci_eq s "Medium" -> risk_color (val s) "#FBBC04"
| risk_medium_high s : ci_eq s "Medium-High" -> risk_color (val s) "#FF9800"
| risk_high s : ci_eq s "High" -> risk_color (val s) "#EA4335"
| risk_unrecognized r :
    (forall s, r = val s ->
       ~ ci_eq s "Low" /\ ~ ci_eq s "Medium"
       /\ ~ ci_eq s "Medium-High" /\ ~ ci_eq s "High") ->
    risk_color r "#9AA0A6".

(** ** The message shown for a failed submission *)

Definition refused (e : AxiosError) : Prop := code e = val "ECONNREFUSED".

Definition has_status (e : AxiosError) (n : Z) : Prop :=
  exists r, response e = val r /\ status r = n.

(** [e] carries the non-empty string [s] at [response.data.detail]. *)
Definition has_detail (e : AxiosError) (s : string) : Prop :=
  exists r d, response e = val r /\ data r = val d /\ detail d = val s
              /\ s <> "".

Definition has_message (e : AxiosError) (s : string) : Prop :=
  message e = val s /\ s <> "".

Inductive error_message_spec (e : AxiosError) : string -> Prop :=
| msg_refused :
    refused e ->
    error_message_spec e
      "Cannot connect to the server. Please check if the backend is running."
| msg_unauthorized :
    ~ refused e -> has_status e 401 ->
    error_message_spec e
      "Authentication failed. Please check your credentials."
| msg_too_large :
    ~ refused e -> has_status e 413 ->
    error_message_spec e
      "File too large. Please upload a file smaller than 10MB."
| msg_detail s :
    ~ refused e -> ~ has_status e 401 -> ~ has_status e 413 ->
    has_detail e s ->
    error_message_spec e s
| msg_own s :
    ~ refused e -> ~ has_status e 401 -> ~ has_status e 413 ->
    (forall d, ~ has_detail e d) ->
    has_message e s ->
    error_message_spec e s
| msg_fallback :
    ~ refused e -> ~ has_status e 401 -> ~ has_status e 413 ->
    (forall d, ~ has_detail e d) ->
    (forall m, ~ has_message e m) ->
    error_message_spec e "Evaluation failed. Please try again.".

(* ================================================================== *)
(** * Sessions: sequences of user actions *)
(* ================================================================== *)

(** ** StartupEvaluator

    The events the JSX wires to a handler.  A session applies them one
    after the other, each handler running to completion.  The UI offers an
    action only in some states (the upload button is disabled without a
    file, the back button exists only next to a result); a session may apply
    any action in any state, which covers what the UI allows. *)
Inductive se_action : Type :=
| SeDrag (e_type : string)                       (* onDragEnter/Leave/Over *)
| SeDrop (files : opt (list File))               (* onDrop *)
| SeChange (files : opt (list File))             (* onChange of the input *)
| SeUpload (env : SE.ProcessEnv) (net : Network SE.EvaluationResult)
| SeViewSample (sample : SE.EvaluationResult)    (* onClick of a sample card *)
| SeBack.                                        (* onClick of the back button *)

Definition se_handler (a : se_action) (st : SE.State) : M SE.State unit :=
  match a with
  | SeDrag e_type => SE.handleDrag e_type
  | SeDrop files => SE.handleDrop files
  | SeChange files => SE.handleFileChange files
  | SeUpload env net => SE.handleFileUpload env net (SE.file st)
  | SeViewSample sample => SE.viewSampleEvaluation sample
  | SeBack => SE.back_btn_onClick
  end.

Definition se_trace (a : se_action) (st : SE.State) : list (Event SE.State) :=
  trace (se_handler a st) st.

Definition se_step (st : SE.State) (a : se_action) : SE.State :=
  final_state (se_handler a st) st.

Definition se_session (actions : list se_action) (st : SE.State) : SE.State :=
  fold_left se_step actions st.

(** ** App *)

(** The [onClick] of the remove-file button. *)
Definition remove_file_onClick : M App.State unit :=
  bind (emit StopPropagation) (fun _ => App.resetUpload).

Inductive app_action : Type :=
| AppDrag (e_type : string)
| AppDrop (files : opt (list File))
| AppSelect (files : opt (list File))
| AppUpload (net : Network App.EvaluationResult)
| AppReset                      (* the reset and analyze-another buttons *)
| AppRemoveFile.

Definition app_handler (a : app_action) (st : App.State) : M App.State unit :=
  match a with
  | AppDrag e_type => App.handleDrag e_type
  | AppDrop files => App.handleDrop files
  | AppSelect files => App.handleFileSelect files
  | AppUpload net => App.handleUpload net (App.file st)
  | AppReset => App.resetUpload
  | AppRemoveFile => remove_file_onClick
  end.

Definition app_trace (a : app_action) (st : App.State)
  : list (Event App.State) :=
  trace (app_handler a st) st.

Definition app_step (st : App.State) (a : app_action) : App.State :=
  final_state (app_handler a st) st.

Definition app_session (actions : list app_action) (st : App.State)
  : App.State :=
  fold_left app_step actions st.

(** A session without a submit. *)
Definition is_upload (a : se_action) : bool :=
  match a with
  | SeUpload _ _ => true
  | _ => false
  end.

Definition browsing (actions : list se_action) : Prop :=
  forallb (fun a => negb (is_upload a)) actions = true.

(** ** Further observations *)

(** The states shown at the suspension points of a trace. *)
Fixpoint shown_states {S : Type} (tr : list (Event S)) : list S :=
  match tr with
  | [] => []
  | AwaitTimer _ shown :: rest => shown :: shown_states rest
  | AwaitPost _ shown :: rest => shown :: shown_states rest
  | _ :: rest => shown_states rest
  end.

(** The number of elements of class [c] in a rendered tree. *)
Fixpoint count_class (c : string) (n : node) : nat :=
  match n with
  | Element _ className _ children =>
      ((if String.eqb className c then 1 else 0)
       + (fix count_all (l : list node) : nat :=
            match l with
            | [] => 0
            | child :: rest => count_class c child + count_all rest
            end) children)%nat
  | _ => 0%nat
  end.

(** The file types the drop zone of StartupEvaluator accepts. *)
Definition acceptable (f : File) : Prop :=
  type f = "application/pdf" \/ startsWith (type f) "image/" = true.

Definition is_pdf (f : File) : Prop := type f = "application/pdf".

(** The selected file of the App client, if any, is a PDF. *)
Definition pdf_selected (st : App.State) : Prop :=
  match App.file st with
  | val f => is_pdf f
  | _ => True
  end.

(** At rest, StartupEvaluator shows sample data exactly when it holds no
    evaluation, and no upload is in progress. *)
Definition se_at_rest (st : SE.State) : Prop :=
  SE.showSampleData st = negb (is_val (SE.evaluation st))
  /\ SE.loading st = false
  /\ SE.processingStep st = 0%Z.

(** A value that [!value] takes for missing. *)
Definition falsy_number (v : opt number) : Prop :=
  absent v \/ v = val NaN \/ exists q, v = val (Finite q) /\ q == 0.

(** The build names a server: [REACT_APP_MCP_SERVER_URL] is a non-empty
    string. *)
Definition configured (env : SE.ProcessEnv) (s : string) : Prop :=
  SE.REACT_APP_MCP_SERVER_URL env = val s /\ s <> "".

(** A PNG, for the examples. *)
Definition logo : File :=
  {| name := "logo.png"; type := "image/png"; size := 4096 |}.

Definition prod_env : SE.ProcessEnv :=
  {| SE.REACT_APP_MCP_SERVER_URL := val "";
     SE.NODE_ENV := val "production" |}.

Definition connection_refused : AxiosError :=
  {| code := val "ECONNREFUSED";
     message := val "connect ECONNREFUSED 127.0.0.1:8080";
     response := undefined |}.

(* ================================================================== *)
(** * Error bodies as they arrive *)
(* ================================================================== *)

(** TypeScript's annotations are erased at run time: the body of an error
    response is whatever JSON the server sent, the [catch] block of
    [handleFileUpload] stores any truthy [detail] of it with [setError], and
    the error display renders what was stored.  This module embeds the
    [catch] block and the error display over arbitrary JSON; [ErrorData]
    and the [error] cell of the component are their restriction to the
    declared type [string], see [Untyped.typed]. *)
Module Untyped.

#[local] Set Warnings "-register-all".

Inductive json : Type :=
| JNull
| JBool (b : bool)
| JNumber (n : number)
| JString (s : string)
| JArray (items : list json)
| JObject (fields : list (string * json)).

Definition truthy (v : json) : bool :=
  match v with
  | JNull => false
  | JBool b => b
  | JNumber n => number_truthy n
  | JString s => string_truthy s
  | JArray _ | JObject _ => true
  end.

(** The property [k] of a parsed object; of two equal keys the later one
    counts. *)
Fixpoint property (k : string) (fields : list (string * json)) : opt json :=
  match fields with
  | [] => undefined
  | (k', v) :: rest =>
      match property k rest with
      | undefined => if k' =? k then val v else undefined
      | found => found
      end
  end.

Record Response : Type := {
  status : Z;
  data : opt json
}.

(** The object a rejected [axios.post] throws. *)
Record Error : Type := {
  code : opt string;
  message : opt string;
  response : opt Response
}.

(** [error.response?.data?.detail]: of the values a body can be, only an
    object has a [detail]. *)
Definition response_data_detail (error : Error) : opt json :=
  match response error with
  | val r =>
      match data r with
      | val (JObject fields) => property "detail" fields
      | _ => undefined
      end
  | _ => undefined
  end.

Definition response_status_is (error : Error) (n : Z) : bool :=
  match response error with
  | val r => (status r =? n)%Z
  | _ => false
  end.

(** The value the [catch] block of [handleFileUpload] passes to
    [setError]. *)
Definition errorMessage (error : Error) : json :=
  let errorMessage := JString "Evaluation failed. Please try again." in
  if match code error with val c => c =? "ECONNREFUSED" | _ => false end then
    JString "Cannot connect to the server. Please check if the backend is running."
  else if response_status_is error 401 then
    JString "Authentication failed. Please check your credentials."
  else if response_status_is error 413 then
    JString "File too large. Please upload a file smaller than 10MB."
  else
    match response_data_detail error with
    | val d =>
        if truthy d then d
        else JString (or_string (message error)
                        "Evaluation failed. Please try again.")
    | _ => JString (or_string (message error)
                      "Evaluation failed. Please try again.")
    end.

(** Why a render fails. *)
Inductive RenderError : Type :=
| NotAFunction        (* TypeError: error.includes is not a function *)
| ObjectAsChild.      (* Objects are not valid as a React child *)

(** [error.includes('Cannot connect')]: a method of strings and of arrays
    only. *)
Definition includes_cannot_connect (error : json) : bool + RenderError :=
  match error with
  | JString s => inl (includes s "Cannot connect")
  | JArray items =>
      inl (existsb (fun v => match v with
                             | JString s => s =? "Cannot connect"
                             | _ => false
                             end) items)
  | _ => inr NotAFunction
  end.

(** [{v}] as a child: strings and numbers are text, [null] and booleans
    render nothing, an array renders its items, an object is refused. *)
Fixpoint child (v : json) : option (list node) :=
  match v with
  | JNull | JBool _ => Some [Nothing]
  | JNumber n => Some [Number n]
  | JString s => Some [Text s]
  | JArray items =>
      (fix children (l : list json) : option (list node) :=
         match l with
         | [] => Some []
         | item :: rest =>
             match child item, children rest with
             | Some a, Some b => Some (a ++ b)%list
             | _, _ => None
             end
         end) items
  | JObject _ => None
  end.

(** [{error && (...)}] for whatever the [error] cell holds: the call of
    [error.includes] is evaluated when the JSX is built, the child of [<p>]
    when React renders it. *)
Definition error_display (error : opt json) : node + RenderError :=
  match error with
  | val v =>
      if truthy v then
        match includes_cannot_connect v with
        | inr thrown => inr thrown
        | inl help =>
            match child v with
            | None => inr ObjectAsChild
            | Some shown =>
                inl (el "div" "error-section"
                  [ el "div" "error-message"
                      [ el "div" "error-icon" [Text "❌"];
                        el "div" "error-content"
                          [ el "strong" "" [Text "Analysis Failed"];
                            el "p" "" shown;
                            when help
                              (el "div" "error-help"
                                 [ el "p" ""
                                     [ el "strong" "" [Text "Development Mode:"];
                                       Text " Make sure your backend server is running on localhost:8080" ];
                                   el "p" ""
                                     [ el "strong" "" [Text "Production Mode:"];
                                       Text " Check your REACT_APP_MCP_SERVER_URL environment variable" ] ]) ] ] ])
            end
        end
      else
        match v with
        | JNumber n => inl (Number n)
        | JString s => inl (Text s)
        | _ => inl Nothing
        end
  | _ => inl Nothing
  end.

(** A typed error as it arrives: its body is an object whose [detail] is
    the string, [null], or missing. *)
Definition typed (e : AxiosError) : Error :=
  {| code := Handler.code e;
     message := Handler.message e;
     response :=
       match Handler.response e with
       | val r =>
           val {| status := Handler.status r;
                  data :=
                    match Handler.data r with
                    | val d =>
                        val (JObject
                               match Handler.detail d with
                               | val s => [("detail", JString s)]
                               | null => [("detail", JNull)]
                               | undefined => []
                               end)
                    | null => val JNull
                    | undefined => undefined
                    end |}
       | null => null
       | undefined => undefined
       end |}.

(** The string cell of the component as the value it holds. *)
Definition held (error : opt string) : opt json :=
  match error with
  | val s => val (JString s)
  | null => null
  | undefined => undefined
  end.

End Untyped.



(* ================================================================== *)
(** * Properties *)
(* ================================================================== *)

(** ** Running the upload handlers *)

(** [handleFileUpload] with a file: the five stage timers, then the request,
    then the success or the failure branch, then [finally]. *)
Lemma handleFileUpload_run env net f st :
  run (SE.handleFileUpload env net (val f)) st =
  match settle net (SE.uploadRequest env f) with
  | inr d =>
      (Done tt, succeeded st d,
       stage_timers st ++ [AwaitPost (SE.uploadRequest env f) (busy st 5)])
  | inl e =>
      (Done tt, failed st (SE.errorMessage e),
       stage_timers st ++ [AwaitPost (SE.uploadRequest env f) (busy st 5);
                           ConsoleError "Evaluation failed:" e])
  end%list.
Proof.
  unfold run, SE.handleFileUpload, try_catch_finally, for_upto, axios_post,
    bind, set, sleep, emit.
  cbn.
  destruct (settle net (SE.uploadRequest env f)); reflexivity.
Qed.

(** Without a file the handler only sets an error. *)
Lemma handleFileUpload_no_file env net st :
  run (SE.handleFileUpload env net null) st =
    (Done tt, SE.setError (val "Please select a file to upload") st, [])
  /\ run (SE.handleFileUpload env net undefined) st =
    (Done tt, SE.setError (val "Please select a file to upload") st, []).
Proof. split; reflexivity. Qed.

(** [handleUpload] of the App client with a file. *)
Lemma handleUpload_run net f st :
  run (App.handleUpload net (val f)) st =
  match settle net (App.uploadRequest f) with
  | inr d =>
      (Done tt, app_succeeded st d,
       [AwaitPost (App.uploadRequest f) (app_busy st)])
  | inl e =>
      (Done tt, app_failed st (App.uploadErrorMessage e),
       [AwaitPost (App.uploadRequest f) (app_busy st);
        ConsoleError "Upload error:" e])
  end.
Proof.
  unfold run, App.handleUpload, try_catch_finally, axios_post, bind, set, emit.
  cbn.
  destruct (settle net (App.uploadRequest f)); reflexivity.
Qed.

(** A request that is not answered within its timeout is rejected. *)
Lemma settle_timeout {D} (net : Network D) req :
  (0 < timeout req)%Z ->
  (timeout req <= latency (net req))%Z ->
  settle net req = inl (timeoutError (timeout req)).
Proof.
  intros Hpos Hlate. unfold settle.
  apply Z.ltb_lt in Hpos. apply Z.leb_le in Hlate.
  rewrite Hpos, Hlate. reflexivity.
Qed.

(** ** Case-insensitive comparison *)

(** [lower_ascii] on character codes. *)
Lemma nat_of_lower_ascii c : nat_of_ascii (lower_ascii c) = lower_code c.
Proof.
  unfold lower_ascii, lower_code.
  pose proof (nat_ascii_bounded c) as Hb.
  destruct ((65 <=? nat_of_ascii c)%nat && (nat_of_ascii c <=? 90)%nat) eqn:E;
    [| reflexivity].
  apply andb_true_iff in E as [_ E2]. apply Nat.leb_le in E2.
  apply nat_ascii_embedding. lia.
Qed.

Lemma nat_of_ascii_inj a b : nat_of_ascii a = nat_of_ascii b -> a = b.
Proof.
  intros H. rewrite <- (ascii_nat_embedding a), <- (ascii_nat_embedding b).
  now rewrite H.
Qed.

(** Two characters are the same letter exactly when they lower-case to the
    same character. *)
Lemma same_letter_lower a b :
  same_letter a b <-> lower_ascii a = lower_ascii b.
Proof.
  assert (Hcode : lower_ascii a = lower_ascii b <-> lower_code a = lower_code b).
  { split; intros H.
    - now rewrite <- !nat_of_lower_ascii, H.
    - apply nat_of_ascii_inj. now rewrite !nat_of_lower_ascii. }
  rewrite Hcode. unfold same_letter, is_upper, lower_code.
  assert (Heq : a = b <-> nat_of_ascii a = nat_of_ascii b).
  { split; [intros ->; reflexivity | apply nat_of_ascii_inj]. }
  rewrite Heq. cbv zeta.
  destruct (Nat.leb_spec 65 (nat_of_ascii a)), (Nat.leb_spec (nat_of_ascii a) 90),
    (Nat.leb_spec 65 (nat_of_ascii b)), (Nat.leb_spec (nat_of_ascii b) 90);
    cbn; lia.
Qed.

Lemma ci_eq_toLowerCase s t : ci_eq s t <-> toLowerCase s = toLowerCase t.
Proof.
  split.
  - induction 1 as [| a b s t Hab _ IH]; [reflexivity |].
    cbn. apply same_letter_lower in Hab. now rewrite Hab, IH.
  - revert t. induction s as [| a s IH]; intros [| b t] H; cbn in H;
      try discriminate.
    + constructor.
    + injection H as Hab Hst. constructor.
      * now apply same_letter_lower.
      * now apply IH.
Qed.

Lemma ci_eq_label s (label : string) :
  ci_eq s label <-> (toLowerCase s =? toLowerCase label) = true.
Proof. rewrite String.eqb_eq. apply ci_eq_toLowerCase. Qed.

Lemma ci_eq_labels s :
  (ci_eq s "Low" <-> (toLowerCase s =? "low") = true)
  /\ (ci_eq s "Medium" <-> (toLowerCase s =? "medium") = true)
  /\ (ci_eq s "Medium-High" <-> (toLowerCase s =? "medium-high") = true)
  /\ (ci_eq s "High" <-> (toLowerCase s =? "high") = true).
Proof.
  split; [exact (ci_eq_label s "Low") |].
  split; [exact (ci_eq_label s "Medium") |].
  split; [exact (ci_eq_label s "Medium-High") | exact (ci_eq_label s "High")].
Qed.

(** C5. For every [risk_level] value, a string or an absent one, the badge
    colour is determined: a value that equals [Low], [Medium],
    [Medium-High] or [High] up to the case of its letters gets the colour of
    that label, and every other value gets the neutral colour [#9AA0A6]. The
    mapping is a total function, so it never throws. *)
Theorem C5_risk_level_color_total (r : opt string) (c : string) :
  risk_color r c <-> SE.getRiskLevelColor r = c.
Proof.
  split.
  - intros H.
    destruct H as [s H | s H | s H | s H | r H].
    1-4: destruct (ci_eq_labels s) as (L1 & L2 & L3 & L4).
    + apply L1 in H. unfold SE.getRiskLevelColor. now rewrite H.
    + apply L2 in H. apply String.eqb_eq in H.
      unfold SE.getRiskLevelColor. now rewrite H.
    + apply L3 in H. apply String.eqb_eq in H.
      unfold SE.getRiskLevelColor. now rewrite H.
    + apply L4 in H. apply String.eqb_eq in H.
      unfold SE.getRiskLevelColor. now rewrite H.
    + destruct r as [| | s]; try reflexivity.
      destruct (H s eq_refl) as (H1 & H2 & H3 & H4).
      destruct (ci_eq_labels s) as (L1 & L2 & L3 & L4).
      rewrite L1 in H1. rewrite L2 in H2. rewrite L3 in H3. rewrite L4 in H4.
      unfold SE.getRiskLevelColor.
      destruct (toLowerCase s =? "low"); [now elim H1 |].
      destruct (toLowerCase s =? "medium"); [now elim H2 |].
      destruct (toLowerCase s =? "medium-high"); [now elim H3 |].
      destruct (toLowerCase s =? "high"); [now elim H4 |].
      reflexivity.
  - intros <-.
    destruct r as [| | s];
      try (apply risk_unrecognized; intros s Hs; discriminate Hs).
    destruct (ci_eq_labels s) as (L1 & L2 & L3 & L4).
    unfold SE.getRiskLevelColor.
    destruct (toLowerCase s =? "low") eqn:E1.
    { apply risk_low, L1. reflexivity. }
    destruct (toLowerCase s =? "medium") eqn:E2.
    { apply risk_medium, L2. reflexivity. }
    destruct (toLowerCase s =? "medium-high") eqn:E3.
    { apply risk_medium_high, L3. reflexivity. }
    destruct (toLowerCase s =? "high") eqn:E4.
    { apply risk_high, L4. reflexivity. }
    apply risk_unrecognized. intros s' Hs'. injection Hs' as <-.
    rewrite L1, L2, L3, L4. repeat split; discriminate.
Qed.

Example getRiskLevelColor_examples :
  SE.getRiskLevelColor (val "LOW") = "#34A853"
  /\ SE.getRiskLevelColor (val "medium-HIGH") = "#FF9800"
  /\ SE.getRiskLevelColor (val "Critical") = "#9AA0A6"
  /\ SE.getRiskLevelColor (val "") = "#9AA0A6"
  /\ SE.getRiskLevelColor undefined = "#9AA0A6".
Proof. repeat split. Qed.

(** ** The stage timers and the request *)

(** C2, as the code has it. Before the upload request is issued the progress
    indicator steps through the five stages in order, the handler awaiting a
    1000 ms timer at each; the request is issued only after the fifth timer
    has elapsed; while the request is outstanding the indicator stays at
    stage 5 and no stage timer runs. *)
Theorem C2_stages_precede_request env net f st :
  let tr := trace (SE.handleFileUpload env net (val f)) st in
  timers_before_request tr
    = map (fun i => (1000%Z, busy st i)) [1; 2; 3; 4; 5]%Z
  /\ posts tr = [SE.uploadRequest env f]
  /\ shown_while_outstanding tr = [busy st 5]
  /\ timers_after_request tr = [].
Proof.
  unfold trace. rewrite handleFileUpload_run.
  destruct (settle net (SE.uploadRequest env f)); cbn; repeat split.
Qed.

(** C2 fails as stated: with [deck.pdf] selected and a network that answers
    after 30 s, the five stages have all been shown before the request is
    issued, the only stage shown while the request is outstanding is the
    fifth, and no stage timer runs during the request. *)
Lemma C2_no_stage_timer_during_request :
  let tr := trace (SE.handleFileUpload dev_env net_ok (val deck)) deck_selected in
  map (fun p => SE.processingStep (snd p)) (timers_before_request tr)
    = [1; 2; 3; 4; 5]%Z
  /\ map SE.processingStep (shown_while_outstanding tr) = [5%Z]
  /\ timers_after_request tr = [].
Proof. vm_compute. repeat split. Qed.

(** ** The message of a failed submission *)

Lemma refused_spec e :
  match code e with val c => c =? "ECONNREFUSED" | _ => false end = true
  <-> refused e.
Proof.
  unfold refused. destruct (code e) as [| | c]; try (split; discriminate).
  rewrite String.eqb_eq. split; [intros -> | intros [= ->]]; reflexivity.
Qed.

Lemma response_status_is_spec e n :
  SE.response_status_is e n = true <-> has_status e n.
Proof.
  unfold SE.response_status_is, has_status.
  destruct (response e) as [| | r].
  - split; [discriminate | intros (r & Hr & _); discriminate].
  - split; [discriminate | intros (r & Hr & _); discriminate].
  - rewrite Z.eqb_eq. split.
    + intros Hs. now exists r.
    + intros (r' & [= <-] & Hs). exact Hs.
Qed.

Lemma string_truthy_spec s : string_truthy s = true <-> s <> "".
Proof.
  unfold string_truthy. destruct (String.eqb_spec s ""); cbn.
  - split; [discriminate | intros Hn; now elim Hn].
  - split; [intros _; assumption | reflexivity].
Qed.

Lemma has_detail_spec e s :
  has_detail e s <-> SE.response_data_detail e = val s /\ s <> "".
Proof.
  unfold has_detail, SE.response_data_detail. split.
  - intros (r & d & -> & -> & -> & Hs). now split.
  - intros [H Hs].
    destruct (response e) as [| | r]; try discriminate.
    destruct (data r) as [| | d] eqn:Hd; try discriminate.
    exists r, d. repeat split; assumption.
Qed.

(** A truthy optional string is a non-empty string, and [||] keeps it. *)
Lemma opt_truthy_string (o : opt string) (dflt : string) :
  (opt_truthy string_truthy o = true ->
     exists s, o = val s /\ s <> "" /\ or_string o dflt = s)
  /\ (opt_truthy string_truthy o = false ->
     forall s, ~ (o = val s /\ s <> "")).
Proof.
  destruct o as [| | s]; cbn; split; try discriminate.
  - intros _ s [H _]. discriminate.
  - intros _ s [H _]. discriminate.
  - intros Hs. exists s. rewrite Hs. apply string_truthy_spec in Hs. auto.
  - intros Hs s' [[= <-] Hne]. apply string_truthy_spec in Hne. congruence.
Qed.

(** The cascade of the [catch] block meets the specification case by case. *)
Lemma errorMessage_spec e : error_message_spec e (SE.errorMessage e).
Proof.
  unfold SE.errorMessage.
  destruct (match code e with val c => c =? "ECONNREFUSED" | _ => false end)
    eqn:Hc.
  { apply msg_refused. now apply refused_spec. }
  assert (Hnr : ~ refused e).
  { intros Hr. apply refused_spec in Hr. congruence. }
  destruct (SE.response_status_is e 401) eqn:H401.
  { apply msg_unauthorized; [assumption | now apply response_status_is_spec]. }
  assert (Hn401 : ~ has_status e 401).
  { intros Hs. apply response_status_is_spec in Hs. congruence. }
  destruct (SE.response_status_is e 413) eqn:H413.
  { apply msg_too_large; [assumption | now apply response_status_is_spec]. }
  assert (Hn413 : ~ has_status e 413).
  { intros Hs. apply response_status_is_spec in Hs. congruence. }
  destruct (opt_truthy_string (SE.response_data_detail e)
              "Evaluation failed. Please try again.") as [Hd1 Hd0].
  destruct (opt_truthy string_truthy (SE.response_data_detail e)).
  { destruct (Hd1 eq_refl) as (s & Hs & Hne & ->).
    apply msg_detail; try assumption. now apply has_detail_spec. }
  assert (Hnd : forall d, ~ has_detail e d).
  { intros d Hd. apply has_detail_spec in Hd. exact (Hd0 eq_refl d Hd). }
  destruct (opt_truthy_string (message e)
              "Evaluation failed. Please try again.") as [Hm1 Hm0].
  destruct (opt_truthy string_truthy (message e)).
  { destruct (Hm1 eq_refl) as (s & Hs & Hne & ->).
    apply msg_own; try assumption. now split. }
  apply msg_fallback; try assumption.
  intros m Hm. exact (Hm0 eq_refl m Hm).
Qed.

(** The message is never empty, so the error display shows it. *)
Lemma errorMessage_truthy e : string_truthy (SE.errorMessage e) = true.
Proof.
  unfold SE.errorMessage.
  destruct (match code e with val c => c =? "ECONNREFUSED" | _ => false end);
    [reflexivity |].
  destruct (SE.response_status_is e 401); [reflexivity |].
  destruct (SE.response_status_is e 413); [reflexivity |].
  destruct (opt_truthy_string (SE.response_data_detail e)
              "Evaluation failed. Please try again.") as [Hd1 _].
  destruct (opt_truthy string_truthy (SE.response_data_detail e)).
  { destruct (Hd1 eq_refl) as (s & _ & Hne & ->).
    now apply string_truthy_spec. }
  destruct (opt_truthy_string (message e)
              "Evaluation failed. Please try again.") as [Hm1 _].
  destruct (opt_truthy string_truthy (message e)); [| reflexivity].
  destruct (Hm1 eq_refl) as (s & _ & Hne & ->).
  now apply string_truthy_spec.
Qed.

(** The state a rejected submit ends in. *)
Lemma submit_failure env net st f e :
  SE.file st = val f ->
  settle net (SE.uploadRequest env f) = inl e ->
  snd (fst (SE.submit env net st)) = failed st (SE.errorMessage e).
Proof.
  intros Hf He. unfold SE.submit. rewrite Hf, handleFileUpload_run, He.
  reflexivity.
Qed.

(** C6, as the code has it. When a submission fails the message shown is
    decided in this order: a refused connection ([ECONNREFUSED]), status
    401 and status 413 each have their own fixed message, the four fixed
    messages being pairwise distinct; otherwise a non-empty [detail] of the
    response body is shown verbatim; otherwise the error's own non-empty
    [message] is shown; otherwise the generic fallback. *)
Theorem C6_error_message_by_priority env net st f e :
  SE.file st = val f ->
  settle net (SE.uploadRequest env f) = inl e ->
  SE.error (snd (fst (SE.submit env net st))) = val (SE.errorMessage e)
  /\ error_message_spec e (SE.errorMessage e)
  /\ NoDup
       [ "Cannot connect to the server. Please check if the backend is running.";
         "Authentication failed. Please check your credentials.";
         "File too large. Please upload a file smaller than 10MB.";
         "Evaluation failed. Please try again." ].
Proof.
  intros Hf He. rewrite (submit_failure env net st f e Hf He).
  split; [reflexivity |]. split; [apply errorMessage_spec |].
  repeat constructor; cbn; intuition discriminate.
Qed.

Lemma C6_error_message_by_priority_witness :
  SE.error (snd (fst (SE.submit dev_env (net_rejecting unprocessable_with_detail)
                        deck_selected)))
    = val "Unsupported document"
  /\ error_message_spec unprocessable_with_detail "Unsupported document".
Proof.
  destruct (C6_error_message_by_priority dev_env
              (net_rejecting unprocessable_with_detail) deck_selected deck
              unprocessable_with_detail eq_refl eq_refl) as (H1 & H2 & _).
  split; [exact H1 | exact H2].
Defined.

(** C6 fails as stated: a 401 answer whose body carries the [detail]
    "Token expired" is shown as the fixed authentication message, not as the
    detail; and a 500 answer without a body is shown as the error's own
    message, not as the generic fallback. *)
Lemma C6_detail_not_shown_for_401 :
  SE.response_data_detail unauthorized_with_detail = val "Token expired"
  /\ SE.error (snd (fst (SE.submit dev_env
                           (net_rejecting unauthorized_with_detail)
                           deck_selected)))
     = val "Authentication failed. Please check your credentials."
  /\ SE.error (snd (fst (SE.submit dev_env (net_rejecting server_error)
                           deck_selected)))
     = val "Request failed with status code 500".
Proof. vm_compute. repeat split. Qed.

(** ** What a submit sends *)

Lemma app_submit_failure net st f e :
  App.file st = val f ->
  settle net (App.uploadRequest f) = inl e ->
  snd (fst (App.submit net st)) = app_failed st (App.uploadErrorMessage e).
Proof.
  intros Hf He. unfold App.submit. rewrite Hf, handleUpload_run, He.
  reflexivity.
Qed.

(** C8, as the code has it. A submit with a selected file issues exactly one
    request, whose body is the single multipart field [file] holding that
    file and whose timeout is 120000 ms; a request that takes longer than
    that is abandoned and the submit ends as a failure, with an
    error message and without a result. The request of [StartupEvaluator]
    carries the bearer credential; the request of [App] carries no
    credential. *)
Theorem C8_one_request_per_submit env net st f netA stA fA :
  SE.file st = val f ->
  App.file stA = val fA ->
  let req := SE.uploadRequest env f in
  let reqA := App.uploadRequest fA in
  (posts (snd (SE.submit env net st)) = [req]
   /\ formData req = [("file", f)]
   /\ header "Authorization" req = Some "Bearer demo-token-2025"
   /\ timeout req = 120000%Z
   /\ ((120000 < latency (net req))%Z ->
       snd (fst (SE.submit env net st))
         = failed st "timeout of 120000ms exceeded"))
  /\
  (posts (snd (App.submit netA stA)) = [reqA]
   /\ formData reqA = [("file", fA)]
   /\ header "Authorization" reqA = None
   /\ timeout reqA = 120000%Z
   /\ ((120000 < latency (netA reqA))%Z ->
       snd (fst (App.submit netA stA))
         = app_failed stA "Failed to process PDF. Please try again.")).
Proof.
  intros Hf HfA req reqA. split.
  - split.
    { unfold SE.submit. rewrite Hf, handleFileUpload_run.
      destruct (settle net (SE.uploadRequest env f)); reflexivity. }
    repeat split. intros Hlate.
    rewrite (submit_failure env net st f (timeoutError 120000) Hf).
    + reflexivity.
    + apply (settle_timeout net req); [reflexivity | cbn; lia].
  - split.
    { unfold App.submit. rewrite HfA, handleUpload_run.
      destruct (settle netA (App.uploadRequest fA)); reflexivity. }
    repeat split. intros Hlate.
    rewrite (app_submit_failure netA stA fA (timeoutError 120000) HfA).
    + reflexivity.
    + apply (settle_timeout netA reqA); [reflexivity | cbn; lia].
Qed.

Lemma C8_one_request_per_submit_witness :
  posts (snd (SE.submit dev_env net_slow deck_selected))
    = [SE.uploadRequest dev_env deck]
  /\ SE.error (snd (fst (SE.submit dev_env net_slow deck_selected)))
     = val "timeout of 120000ms exceeded"
  /\ SE.evaluation (snd (fst (SE.submit dev_env net_slow deck_selected)))
     = null
  /\ posts (snd (App.submit app_net_slow app_deck_selected))
     = [App.uploadRequest deck]
  /\ App.error (snd (fst (App.submit app_net_slow app_deck_selected)))
     = val "Failed to process PDF. Please try again.".
Proof.
  destruct (C8_one_request_per_submit dev_env net_slow deck_selected deck
              app_net_slow app_deck_selected deck eq_refl eq_refl)
    as ((P & _ & _ & _ & T) & (PA & _ & _ & _ & TA)).
  assert (Hlate : (120000 < 180000)%Z) by reflexivity.
  split; [exact P |].
  split; [rewrite (T Hlate); reflexivity |].
  split; [rewrite (T Hlate); reflexivity |].
  split; [exact PA |].
  rewrite (TA Hlate). reflexivity.
Defined.

(** C8 fails as stated for the App client: its one request for [deck.pdf]
    has the content type as its only header and so carries no bearer
    credential. *)
Lemma C8_app_request_without_credential :
  posts (snd (App.submit app_net_ok app_deck_selected))
    = [App.uploadRequest deck]
  /\ headers (App.uploadRequest deck)
     = [("Content-Type", "multipart/form-data")]
  /\ header "Authorization" (App.uploadRequest deck) = None.
Proof. vm_compute. repeat split. Qed.

(** ** A failed submission and the error display *)

(** On the declared types the untyped [catch] block computes the message
    of [errorMessage]. *)
Lemma untyped_errorMessage_typed e :
  Untyped.errorMessage (Untyped.typed e)
  = Untyped.JString (SE.errorMessage e).
Proof.
  destruct e as [c m r].
  unfold Untyped.errorMessage, SE.errorMessage, Untyped.response_status_is,
    SE.response_status_is, Untyped.response_data_detail,
    SE.response_data_detail, Untyped.typed, or_string, opt_truthy.
  cbn.
  destruct c as [| | c]; cbn;
    try (destruct (c =? "ECONNREFUSED"); [reflexivity |]);
    (destruct r as [| | [st d]]; cbn;
     [ | | destruct (st =? 401)%Z; [reflexivity |];
           destruct (st =? 413)%Z; [reflexivity |];
           destruct d as [| | [[| | s]]]; cbn;
           try (destruct (string_truthy s); [reflexivity |]) ]);
    destruct m as [| | m]; cbn; try reflexivity;
    destruct (string_truthy m); reflexivity.
Qed.

(** While the error cell holds a string or [null], the untyped error
    display renders what [error_display] renders. *)
Lemma untyped_error_display_typed st :
  Untyped.error_display (Untyped.held (SE.error st))
  = inl (SE.error_display st).
Proof.
  unfold Untyped.error_display, SE.error_display, Untyped.held.
  destruct (SE.error st) as [| | s]; cbn; try reflexivity.
  destruct (string_truthy s); reflexivity.
Qed.


(** ** Selecting a file *)

(** Dropping a file that is neither a PDF nor an image sets the error and
    stores nothing; the handler issues no request. *)
Lemma handleDrop_rejects f rest st :
  type f <> "application/pdf" ->
  startsWith (type f) "image/" = false ->
  run (SE.handleDrop (val (f :: rest))) st
  = (Done tt,
     SE.setError (val "Please upload a PDF or image file")
       (SE.setDragActive false st),
     [PreventDefault; StopPropagation]).
Proof.
  intros Hpdf Himg. apply String.eqb_neq in Hpdf.
  unfold run, SE.handleDrop, bind, emit, set. cbn.
  now rewrite Hpdf, Himg.
Qed.

(** Both selection handlers of the App client reject what is not a PDF. *)
Lemma app_handlers_reject f rest st :
  type f <> "application/pdf" ->
  run (App.handleDrop (val (f :: rest))) st
  = (Done tt,
     App.setError (val "Please upload a PDF file only.")
       (App.setDragActive false st),
     [PreventDefault; StopPropagation])
  /\ run (App.handleFileSelect (val (f :: rest))) st
     = (Done tt, App.setError (val "Please upload a PDF file only.") st, []).
Proof.
  intros Hpdf. apply String.eqb_neq in Hpdf.
  unfold run, App.handleDrop, App.handleFileSelect, bind, emit, set. cbn.
  now rewrite Hpdf.
Qed.

(** The file picker of [StartupEvaluator] stores whatever it is given. *)
Lemma handleFileChange_run f rest st :
  run (SE.handleFileChange (val (f :: rest))) st
  = (Done tt, SE.setError null (SE.setFile (val f) st), []).
Proof. reflexivity. Qed.

(** C1 at the failing input. The file picker of [StartupEvaluator] is given
    [notes.txt], of type [text/plain]: the file is stored as the selected
    file, no error is set, and the next submit posts it. (Dropping the same
    file is rejected, see [handleDrop_rejects].) *)
Theorem C1_file_picker_stores_text_file :
  let st := snd (fst (run (SE.handleFileChange (val [notes])) SE.initial)) in
  type notes = "text/plain"
  /\ SE.file st = val notes
  /\ SE.error st = null
  /\ posts (snd (SE.submit dev_env net_ok st))
     = [SE.uploadRequest dev_env notes].
Proof. vm_compute. repeat split. Qed.

(** ** Resetting *)

Lemma back_btn_onClick_run st :
  run SE.back_btn_onClick st
  = (Done tt,
     {| SE.file := null; SE.evaluation := null;
        SE.loading := SE.loading st; SE.error := SE.error st;
        SE.dragActive := SE.dragActive st;
        SE.processingStep := SE.processingStep st;
        SE.showSampleData := true |},
     []).
Proof. reflexivity. Qed.

(** [resetUpload] of the App client clears all three. *)
Lemma resetUpload_clears st :
  let st' := snd (fst (run App.resetUpload st)) in
  App.file st' = null /\ App.evaluation st' = null /\ App.error st' = null.
Proof. cbn. repeat split. Qed.

(** C4 at the failing input. [deck.pdf] is submitted and its result is
    displayed; [notes.txt] is then dropped, which sets an error; the "Back
    to Upload" button then clears the file and the result but leaves the
    error, which the upload section keeps displaying. *)
Theorem C4_back_button_keeps_error :
  let displayed := snd (fst (SE.submit dev_env net_ok deck_selected)) in
  let dropped := snd (fst (run (SE.handleDrop (val [notes])) displayed)) in
  let st' := snd (fst (run SE.back_btn_onClick dropped)) in
  SE.evaluation displayed = val we360ai
  /\ SE.error displayed = null
  /\ SE.evaluation dropped = val we360ai
  /\ SE.file st' = null
  /\ SE.evaluation st' = null
  /\ SE.error st' = val "Please upload a PDF or image file"
  /\ SE.error_display st'
     = SE.error_section "Please upload a PDF or image file".
Proof. vm_compute. repeat split. Qed.

(** ** The investment score *)

Lemma Qle_bool_false a b : Qle_bool a b = false <-> b < a.
Proof.
  rewrite <- Bool.not_true_iff_false, Qle_bool_iff. split.
  - apply Qnot_le_lt.
  - apply Qlt_not_le.
Qed.

(** C3, as the code has it. The score circle shows the [investment_score]
    of the response as it is, without clamping, and its colour is one of
    four bands: [#34A853] from 80, [#FBBC04] from 60 to below 80, [#FF9800]
    from 40 to below 60, [#EA4335] below 40 (and for [NaN]). *)
Theorem C3_score_shown_as_is_in_four_bands (e : SE.EvaluationResult) (q : Q) :
  SE.score_circle e
  = Element "div" "score-circle"
      [("backgroundColor", SE.getScoreColor (SE.investment_score e))]
      [ el "span" "score-value" [Number (SE.investment_score e)];
        el "span" "score-max" [Text "/100"] ]
  /\ (SE.getScoreColor (Finite q) = "#34A853" <-> 80 <= q)
  /\ (SE.getScoreColor (Finite q) = "#FBBC04" <-> 60 <= q /\ q < 80)
  /\ (SE.getScoreColor (Finite q) = "#FF9800" <-> 40 <= q /\ q < 60)
  /\ (SE.getScoreColor (Finite q) = "#EA4335" <-> q < 40)
  /\ SE.getScoreColor NaN = "#EA4335"
  /\ SE.getScoreColor (Infinity false) = "#34A853"
  /\ SE.getScoreColor (Infinity true) = "#EA4335".
Proof.
  split; [reflexivity |].
  unfold SE.getScoreColor, ge, of_Z.
  destruct (Qle_bool (inject_Z 80) q) eqn:E80;
    [apply Qle_bool_iff in E80 | apply Qle_bool_false in E80];
  (destruct (Qle_bool (inject_Z 60) q) eqn:E60;
    [apply Qle_bool_iff in E60 | apply Qle_bool_false in E60]);
  (destruct (Qle_bool (inject_Z 40) q) eqn:E40;
    [apply Qle_bool_iff in E40 | apply Qle_bool_false in E40]);
  change (inject_Z 80) with 80 in *; change (inject_Z 60) with 60 in *;
  change (inject_Z 40) with 40 in *;
  repeat split; try discriminate; try reflexivity; intros; try assumption;
  try (exfalso; lra).
Qed.

(** C3 fails as stated: a score of 150 is shown as 150, and the scores 42
    and 30, both below 60, get different colours. *)
Lemma C3_score_150_shown_and_two_colors_below_60 :
  SE.score_circle (with_investment_score (of_Z 150) we360ai)
  = Element "div" "score-circle" [("backgroundColor", "#34A853")]
      [ el "span" "score-value" [Number (of_Z 150)];
        el "span" "score-max" [Text "/100"] ]
  /\ SE.getScoreColor (of_Z 42) = "#FF9800"
  /\ SE.getScoreColor (of_Z 30) = "#EA4335".
Proof. vm_compute. repeat split. Qed.

(** ** Absent numeric fields *)

(** C7 at the failing input. For an answer that carries neither [team_size]
    nor [overall_risk_score] the metrics grid shows [N/A] for the absent
    ARR and team efficiency, but nothing at all after "Team: " and after
    "Score: ": these two expressions lack the guard that the other three
    carry. *)
Theorem C7_absent_team_size_and_risk_score_show_nothing :
  SE.team_size (SE.extracted_data answer_without_team_size) = undefined
  /\ SE.overall_risk_score (SE.risk_assessment answer_without_team_size)
     = undefined
  /\ @SE.metrics_grid example_host answer_without_team_size
     = el "div" "metrics-grid"
         [ el "div" "metric-card"
             [ el "div" "metric-header"
                 [ el "span" "metric-icon" [Text "📈"];
                   el "span" "metric-title" [Text "Performance"] ];
               el "div" "metric-value" [Number (of_Z 45); Text "%"];
               el "div" "metric-label" [Text "Sector Percentile"];
               el "div" "metric-subtitle" [Text "Average"] ];
           el "div" "metric-card"
             [ el "div" "metric-header"
                 [ el "span" "metric-icon" [Text "⚠️"];
                   el "span" "metric-title" [Text "Risk"] ];
               Element "div" "metric-value risk-badge"
                 [("backgroundColor", "#FBBC04")] [Text "Medium"];
               el "div" "metric-label" [Text "Risk Assessment"];
               el "div" "metric-subtitle" [Text "Score: "; Nothing] ];
           el "div" "metric-card"
             [ el "div" "metric-header"
                 [ el "span" "metric-icon" [Text "💰"];
                   el "span" "metric-title" [Text "Revenue"] ];
               el "div" "metric-value" [Text "N/A"];
               el "div" "metric-label" [Text "Annual Recurring Revenue"];
               el "div" "metric-subtitle"
                 [Text "Team: "; Nothing; Text " members"] ];
           el "div" "metric-card"
             [ el "div" "metric-header"
                 [ el "span" "metric-icon" [Text "⚡"];
                   el "span" "metric-title" [Text "Efficiency"] ];
               el "div" "metric-value" [Text "N/A"];
               el "div" "metric-label" [Text "ARR per Employee"];
               el "div" "metric-subtitle" [Text "Productivity metric"] ] ].
Proof. vm_compute. repeat split. Qed.

(** ** A zero ARR *)

Lemma formatCurrency_zero (H : Host) q :
  q == 0 -> SE.formatCurrency (val (Finite q)) = "N/A".
Proof.
  intros Hq. unfold SE.formatCurrency, number_truthy.
  apply Qeq_bool_iff in Hq. now rewrite Hq.
Qed.

Lemma formatCurrency_absent (H : Host) (v : opt number) :
  absent v -> SE.formatCurrency v = "N/A".
Proof. destruct v; [reflexivity | reflexivity | intros []]. Qed.

(** C9. The currency formatter gives [N/A] for the number zero as it does
    for an absent value, so for every evaluation the whole rendered page is
    the same whether its [arr_crore] is zero or absent. *)
Theorem C9_zero_arr_shown_as_absent (H : Host) (now : string) (st : SE.State)
    (e : SE.EvaluationResult) (q : Q) (v : opt number) :
  q == 0 ->
  absent v ->
  SE.formatCurrency (val (Finite q)) = "N/A"
  /\ SE.formatCurrency v = "N/A"
  /\ SE.render now
       (SE.setEvaluation (val (with_arr_crore (val (Finite q)) e)) st)
     = SE.render now (SE.setEvaluation (val (with_arr_crore v e)) st).
Proof.
  intros Hq Hv.
  pose proof (formatCurrency_zero H q Hq) as Hz.
  pose proof (formatCurrency_absent H v Hv) as Ha.
  split; [exact Hz |]. split; [exact Ha |].
  assert (Hg : SE.metrics_grid (with_arr_crore (val (Finite q)) e)
               = SE.metrics_grid (with_arr_crore v e)).
  { unfold SE.metrics_grid, SE.arr_crore_value.
    change (SE.arr_crore (SE.extracted_data
                            (with_arr_crore (val (Finite q)) e)))
      with (val (Finite q)).
    change (SE.arr_crore (SE.extracted_data (with_arr_crore v e))) with v.
    rewrite Hz, Ha. reflexivity. }
  unfold SE.render, SE.results_section.
  cbn [SE.evaluation SE.setEvaluation].
  rewrite Hg. reflexivity.
Qed.

Lemma C9_zero_arr_shown_as_absent_witness :
  SE.arr_crore (SE.extracted_data cashvisory) = val (Finite 0)
  /\ SE.arr_crore (SE.extracted_data drdoodley) = null
  /\ @SE.formatCurrency example_host (SE.arr_crore (SE.extracted_data cashvisory))
     = @SE.formatCurrency example_host (SE.arr_crore (SE.extracted_data drdoodley)).
Proof.
  assert (H0 : 0 == 0) by reflexivity.
  destruct (C9_zero_arr_shown_as_absent example_host "" SE.initial cashvisory
              0 null H0 I) as (Hz & Ha & _).
  split; [reflexivity |]. split; [reflexivity |].
  change (SE.arr_crore (SE.extracted_data cashvisory)) with (val (Finite 0)).
  change (SE.arr_crore (SE.extracted_data drdoodley)) with (@null number).
  now rewrite Hz, Ha.
Defined.

(* ================================================================== *)
(** * Further properties of the two clients *)
(* ================================================================== *)

(** ** Sessions of StartupEvaluator *)

Lemma se_step_at_rest a st : se_at_rest st -> se_at_rest (se_step st a).
Proof.
  unfold se_at_rest. intros (Hs & Hl & Hp).
  destruct a as [e_type | files | files | env net | sample |];
    unfold se_step, final_state, se_handler.
  - unfold run, SE.handleDrag, bind, emit, set. cbn.
    destruct ((e_type =? "dragenter") || (e_type =? "dragover"));
      [| destruct (e_type =? "dragleave")]; cbn; auto.
  - unfold run, SE.handleDrop, bind, emit, set.
    destruct files as [| | [| f rest]]; cbn; auto.
    destruct ((type f =? "application/pdf") || startsWith (type f) "image/");
      cbn; auto.
  - unfold run, SE.handleFileChange, bind, set.
    destruct files as [| | [| f rest]]; cbn; auto.
  - destruct (SE.file st) as [| | f] eqn:Hf.
    + cbn. auto.
    + cbn. auto.
    + rewrite handleFileUpload_run.
      destruct (settle net (SE.uploadRequest env f)); cbn; auto.
  - cbn. auto.
  - cbn. auto.
Qed.

Lemma se_session_at_rest actions st :
  se_at_rest st -> se_at_rest (se_session actions st).
Proof.
  revert st. induction actions as [| a actions IH]; intros st Hst.
  - exact Hst.
  - cbn. apply IH. now apply se_step_at_rest.
Qed.

Lemma initial_at_rest : se_at_rest SE.initial.
Proof. repeat split. Qed.

Lemma browsing_step_keeps_one_section a st :
  is_upload a = false ->
  SE.showSampleData st = negb (is_val (SE.evaluation st)) ->
  SE.showSampleData (se_step st a)
  = negb (is_val (SE.evaluation (se_step st a))).
Proof.
  intros Ha Hs.
  destruct a as [e_type | files | files | env net | sample |];
    try discriminate Ha; unfold se_step, final_state, se_handler.
  - unfold run, SE.handleDrag, bind, emit, set. cbn.
    destruct ((e_type =? "dragenter") || (e_type =? "dragover"));
      [| destruct (e_type =? "dragleave")]; cbn; exact Hs.
  - unfold run, SE.handleDrop, bind, emit, set.
    destruct files as [| | [| f rest]]; cbn; try exact Hs.
    destruct ((type f =? "application/pdf") || startsWith (type f) "image/");
      cbn; exact Hs.
  - unfold run, SE.handleFileChange, bind, set.
    destruct files as [| | [| f rest]]; cbn; exact Hs.
  - reflexivity.
  - reflexivity.
Qed.

(** X1. As long as the user only browses (drags, drops or picks files,
    opens sample evaluations, goes back) and does not submit, the page
    shows exactly one of the sample-data section and the results section:
    never both, never neither. *)
Theorem session_shows_samples_or_results (H : Host) (now : string)
    (actions : list se_action) :
  browsing actions ->
  let st := se_session actions SE.initial in
  (SE.results_section st = Nothing
   /\ exists children,
        SE.sample_data_section now st
        = el "section" "sample-data-section" children)
  \/
  (SE.sample_data_section now st = Nothing
   /\ exists children,
        SE.results_section st = el "section" "results-section" children).
Proof.
  intros Hb st.
  assert (Hs : SE.showSampleData st = negb (is_val (SE.evaluation st))).
  { subst st. revert Hb.
    generalize SE.initial,
      (eq_refl : SE.showSampleData SE.initial
                 = negb (is_val (SE.evaluation SE.initial))).
    unfold browsing.
    induction actions as [| a actions IH]; intros s Hs Hb; [exact Hs |].
    cbn in Hb. apply andb_true_iff in Hb as [Ha Hb].
    apply negb_true_iff in Ha.
    cbn. apply IH; [| exact Hb].
    now apply browsing_step_keeps_one_section. }
  unfold SE.results_section, SE.sample_data_section. rewrite Hs.
  destruct (SE.evaluation st) as [| | ev]; cbn.
  - left. split; [reflexivity | eexists; reflexivity].
  - left. split; [reflexivity | eexists; reflexivity].
  - right. split; [reflexivity | eexists; reflexivity].
Qed.

Lemma session_shows_samples_or_results_witness :
  let st := se_session [SeViewSample we360ai; SeDrop (val [deck])]
              SE.initial in
  (@SE.results_section example_host st = Nothing
   /\ exists children,
        @SE.sample_data_section example_host "" st
        = el "section" "sample-data-section" children)
  \/
  (@SE.sample_data_section example_host "" st = Nothing
   /\ exists children,
        @SE.results_section example_host st
        = el "section" "results-section" children).
Proof.
  exact (session_shows_samples_or_results example_host ""
           [SeViewSample we360ai; SeDrop (val [deck])] eq_refl).
Defined.

(** X2. Between user actions no upload is in progress: after any session
    the progress indicator is hidden, and the upload button reads "Start AI
    Analysis" and is enabled exactly when a file is selected. *)
Theorem session_ends_idle (actions : list se_action) :
  let st := se_session actions SE.initial in
  SE.loading st = false
  /\ SE.processingStep st = 0%Z
  /\ SE.processing_steps st = Nothing
  /\ SE.upload_btn st
     = Element "button" "upload-btn"
         [("disabled", if is_val (SE.file st) then "false" else "true")]
         [Text "🚀 Start AI Analysis"].
Proof.
  intros st.
  destruct (se_session_at_rest actions SE.initial initial_at_rest)
    as (_ & Hl & Hp).
  fold st in Hl, Hp.
  unfold SE.processing_steps, SE.upload_btn. rewrite Hl.
  repeat split; try assumption.
  destruct (SE.file st); reflexivity.
Qed.

(** ** What reaches the network *)

(** X3. In StartupEvaluator only a submit with a selected file reaches the
    network: it awaits the five stage timers and issues one request for
    that file; every other action, a submit without a file included, runs
    without suspending and issues no request. *)
Theorem se_only_submit_with_file_posts (a : se_action) (st : SE.State) :
  (exists env net f,
      a = SeUpload env net /\ SE.file st = val f
      /\ posts (se_trace a st) = [SE.uploadRequest env f]
      /\ length (shown_states (se_trace a st)) = 6%nat)
  \/ (posts (se_trace a st) = [] /\ shown_states (se_trace a st) = []).
Proof.
  destruct a as [e_type | files | files | env net | sample |];
    unfold se_trace, trace, se_handler.
  - right. unfold run, SE.handleDrag, bind, emit, set. cbn.
    destruct ((e_type =? "dragenter") || (e_type =? "dragover"));
      [| destruct (e_type =? "dragleave")]; cbn; auto.
  - right. unfold run, SE.handleDrop, bind, emit, set.
    destruct files as [| | [| f rest]]; cbn; auto.
    destruct ((type f =? "application/pdf") || startsWith (type f) "image/");
      cbn; auto.
  - right. unfold run, SE.handleFileChange, bind, set.
    destruct files as [| | [| f rest]]; cbn; auto.
  - destruct (SE.file st) as [| | f] eqn:Hf.
    + right. cbn. auto.
    + right. cbn. auto.
    + left. exists env, net, f. rewrite handleFileUpload_run.
      destruct (settle net (SE.uploadRequest env f)); cbn; auto.
  - right. cbn. auto.
  - right. cbn. auto.
Qed.

(** X4. The same for the App client: only a submit with a selected file
    issues a request, exactly one, for that file. *)
Theorem app_only_submit_with_file_posts (a : app_action) (st : App.State) :
  (exists net f,
      a = AppUpload net /\ App.file st = val f
      /\ posts (app_trace a st) = [App.uploadRequest f])
  \/ (posts (app_trace a st) = [] /\ shown_states (app_trace a st) = []).
Proof.
  destruct a as [e_type | files | files | net | |];
    unfold app_trace, trace, app_handler.
  - right. unfold run, App.handleDrag, bind, emit, set. cbn.
    destruct ((e_type =? "dragenter") || (e_type =? "dragover"));
      [| destruct (e_type =? "dragleave")]; cbn; auto.
  - right. unfold run, App.handleDrop, bind, emit, set.
    destruct files as [| | [| f rest]]; cbn; auto.
    destruct (type f =? "application/pdf"); cbn; auto.
  - right. unfold run, App.handleFileSelect, bind, set.
    destruct files as [| | [| f rest]]; cbn; auto.
    destruct (type f =? "application/pdf"); cbn; auto.
  - destruct (App.file st) as [| | f] eqn:Hf.
    + right. cbn. auto.
    + right. cbn. auto.
    + left. exists net, f. rewrite handleUpload_run.
      destruct (settle net (App.uploadRequest f)); cbn; auto.
  - right. cbn. auto.
  - right. cbn. auto.
Qed.

(** ** While a submit is suspended *)

(** X5. At every suspension point of [handleFileUpload] (each stage timer
    and the request) the UI shows the upload as in progress, whatever other
    handlers have done to the other cells in the meantime: in every state
    that has the [loading] and [processingStep] of the suspended handler,
    the button is disabled and reads "Processing...", exactly one stage of
    the pipeline carries the spinner, and the stages before it, and only
    they, carry the check mark. *)
Theorem suspended_shows_progress env net f st s u :
  In s (shown_states (trace (SE.handleFileUpload env net (val f)) st)) ->
  SE.loading u = SE.loading s ->
  SE.processingStep u = SE.processingStep s ->
  SE.loading u = true
  /\ SE.upload_btn u
     = Element "button" "upload-btn" [("disabled", "true")]
         [Text "⏳ Processing..."]
  /\ count_class "step-spinner" (SE.processing_steps u) = 1%nat
  /\ count_class "step-complete" (SE.processing_steps u)
     = Z.to_nat (SE.processingStep u - 1).
Proof.
  intros Hin Hl Hp.
  assert (Hs : SE.loading s = true
               /\ In (SE.processingStep s) [1; 2; 3; 4; 5]%Z).
  { revert Hin. unfold trace. rewrite handleFileUpload_run.
    destruct (settle net (SE.uploadRequest env f)); cbn;
      intros [<- | [<- | [<- | [<- | [<- | [<- | []]]]]]];
      cbn; auto 10. }
  destruct Hs as [Hls Hps]. rewrite <- Hl, <- Hp in *.
  split; [exact Hls |]. split.
  - unfold SE.upload_btn. rewrite Hls. now rewrite Bool.orb_true_r.
  - unfold SE.processing_steps. rewrite Hls.
    cbn in Hps.
    destruct Hps as [Hq | [Hq | [Hq | [Hq | [Hq | []]]]]];
      rewrite <- Hq; split; reflexivity.
Qed.

Lemma suspended_shows_progress_witness :
  let u := SE.setError (val "Please upload a PDF or image file")
             (busy deck_selected 3) in
  count_class "step-spinner" (SE.processing_steps u) = 1%nat
  /\ count_class "step-complete" (SE.processing_steps u) = 2%nat.
Proof.
  intros u.
  assert (Hin : In (busy deck_selected 3)
                  (shown_states
                     (trace (SE.handleFileUpload dev_env net_ok (val deck))
                        deck_selected))).
  { right. right. left. reflexivity. }
  destruct (suspended_shows_progress dev_env net_ok deck deck_selected
              (busy deck_selected 3) u Hin eq_refl eq_refl)
    as (_ & _ & Hs & Hc).
  split; [exact Hs | exact Hc].
Defined.

(** ** A successful submit *)

(** X6. When the request succeeds, the response becomes the displayed
    evaluation, whatever was displayed before: the results section shows its
    score card and metrics, the sample-data section and the progress
    indicator are hidden, any earlier error is gone, and the selected file
    is kept. *)
Theorem success_shows_result (H : Host) (now : string) env net st f d :
  SE.file st = val f ->
  settle net (SE.uploadRequest env f) = inr d ->
  let st' := snd (fst (SE.submit env net st)) in
  SE.evaluation st' = val d
  /\ SE.file st' = val f
  /\ SE.error_display st' = Nothing
  /\ SE.processing_steps st' = Nothing
  /\ SE.sample_data_section now st' = Nothing
  /\ exists heading rest,
       SE.results_section st'
       = el "section" "results-section"
           (heading :: SE.score_card d :: SE.metrics_grid d :: rest).
Proof.
  intros Hf Hd st'. subst st'.
  unfold SE.submit. rewrite Hf, handleFileUpload_run.
  destruct (settle net (SE.uploadRequest env f)) as [e | d'];
    [discriminate Hd | injection Hd as ->].
  cbn. repeat split; try assumption.
  do 2 eexists. reflexivity.
Qed.

Lemma success_shows_result_witness :
  let st' := snd (fst (SE.submit dev_env net_ok
                         (SE.setError (val "Please upload a PDF or image file")
                            deck_selected))) in
  SE.evaluation st' = val we360ai /\ SE.error_display st' = Nothing.
Proof.
  intros st'.
  destruct (success_shows_result example_host "" dev_env net_ok
              (SE.setError (val "Please upload a PDF or image file")
                 deck_selected)
              deck we360ai eq_refl eq_refl) as (He & _ & Hd & _).
  split; [exact He | exact Hd].
Defined.

(** ** Returning to the initial state *)

(** X7. "Back to Upload" always resets the file, the evaluation and the
    sample-data flag and leaves the other cells as they are; so it brings
    StartupEvaluator back to its initial state exactly when no error is
    pending and no drag or upload is under way. *)
Theorem back_restores_initial_iff (st : SE.State) :
  final_state SE.back_btn_onClick st
  = {| SE.file := null; SE.evaluation := null;
       SE.loading := SE.loading st; SE.error := SE.error st;
       SE.dragActive := SE.dragActive st;
       SE.processingStep := SE.processingStep st;
       SE.showSampleData := true |}
  /\ (final_state SE.back_btn_onClick st = SE.initial
      <-> SE.error st = null /\ SE.loading st = false
          /\ SE.dragActive st = false /\ SE.processingStep st = 0%Z).
Proof.
  unfold final_state. rewrite back_btn_onClick_run. cbn.
  split; [reflexivity |].
  unfold SE.initial. split.
  - intros [= Hl He Hd Hp]. auto.
  - intros (He & Hl & Hd & Hp). now rewrite He, Hl, Hd, Hp.
Qed.

(** Dropping a PDF or an image stores it and clears the error. *)
Lemma handleDrop_accepts f rest st :
  acceptable f ->
  run (SE.handleDrop (val (f :: rest))) st
  = (Done tt,
     SE.setError null (SE.setFile (val f) (SE.setDragActive false st)),
     [PreventDefault; StopPropagation]).
Proof.
  intros Hacc.
  assert (Ht : (type f =? "application/pdf")
               || startsWith (type f) "image/" = true).
  { destruct Hacc as [Hp | Hi].
    - apply String.eqb_eq in Hp. now rewrite Hp.
    - rewrite Hi. apply Bool.orb_true_r. }
  unfold run, SE.handleDrop, bind, emit, set. cbn. now rewrite Ht.
Qed.

(** X8. A whole cycle returns to where it started: from the initial state,
    dropping a PDF or an image, submitting it successfully and going back
    to the upload gives the initial state again, for every such file,
    configuration and response. *)
Theorem upload_cycle_returns_to_initial env net f rest d :
  acceptable f ->
  settle net (SE.uploadRequest env f) = inr d ->
  se_session [SeDrop (val (f :: rest)); SeUpload env net; SeBack] SE.initial
  = SE.initial.
Proof.
  intros Hacc Hd.
  unfold se_session, fold_left, se_step, final_state.
  cbn [se_handler].
  rewrite (handleDrop_accepts f rest SE.initial Hacc).
  cbn [fst snd].
  change (SE.file (SE.setError null
                     (SE.setFile (val f) (SE.setDragActive false SE.initial))))
    with (val f).
  rewrite handleFileUpload_run, Hd. reflexivity.
Qed.

Lemma upload_cycle_returns_to_initial_witness :
  se_session [SeDrop (val [logo]); SeUpload dev_env net_ok; SeBack] SE.initial
  = SE.initial.
Proof.
  apply (upload_cycle_returns_to_initial dev_env net_ok logo [] we360ai).
  - right. reflexivity.
  - reflexivity.
Defined.

(** ** The App client *)

Lemma resetUpload_run st :
  run App.resetUpload st
  = (Done tt,
     {| App.file := null; App.evaluation := null;
        App.loading := App.loading st; App.error := null;
        App.dragActive := App.dragActive st;
        App.fileInputValue := match App.fileInputValue st with
                              | val _ => val ""
                              | other => other
                              end |},
     []).
Proof. reflexivity. Qed.

(** X9. [resetUpload] brings the App client back to its initial state
    exactly when no upload or drag is under way (the file input being
    mounted): file, evaluation, error and the value of the file input are
    all cleared. The remove-file button does the same and also stops the
    click from reaching the upload area. *)
Theorem resetUpload_restores_initial_iff (st : App.State) :
  (final_state App.resetUpload st = app_initial
   <-> App.loading st = false /\ App.dragActive st = false
       /\ is_val (App.fileInputValue st) = true)
  /\ final_state remove_file_onClick st = final_state App.resetUpload st
  /\ trace remove_file_onClick st = [StopPropagation].
Proof.
  split; [| split; reflexivity].
  unfold final_state. rewrite resetUpload_run. cbn.
  unfold app_initial. split.
  - intros [= Hl Hd Hv]. repeat split; try assumption.
    destruct (App.fileInputValue st); [discriminate | discriminate | reflexivity].
  - intros (Hl & Hd & Hv). rewrite Hl, Hd.
    destruct (App.fileInputValue st); [discriminate | discriminate | reflexivity].
Qed.

Lemma app_step_pdf_selected a st :
  pdf_selected st -> pdf_selected (app_step st a).
Proof.
  unfold pdf_selected, is_pdf. intros Hst.
  destruct a as [e_type | files | files | net | |];
    unfold app_step, final_state, app_handler.
  - unfold run, App.handleDrag, bind, emit, set. cbn.
    destruct ((e_type =? "dragenter") || (e_type =? "dragover"));
      [| destruct (e_type =? "dragleave")]; cbn; auto.
  - unfold run, App.handleDrop, bind, emit, set.
    destruct files as [| | [| f rest]]; cbn; auto.
    destruct (String.eqb_spec (type f) "application/pdf"); cbn; auto.
  - unfold run, App.handleFileSelect, bind, set.
    destruct files as [| | [| f rest]]; cbn; auto.
    destruct (String.eqb_spec (type f) "application/pdf"); cbn; auto.
  - destruct (App.file st) as [| | f] eqn:Hf.
    + cbn. now rewrite Hf.
    + cbn. now rewrite Hf.
    + rewrite handleUpload_run.
      destruct (settle net (App.uploadRequest f)); cbn; now rewrite Hf.
  - cbn. exact I.
  - cbn. exact I.
Qed.

Lemma app_session_pdf_selected actions st :
  pdf_selected st -> pdf_selected (app_session actions st).
Proof.
  revert st. induction actions as [| a actions IH]; intros st Hst.
  - exact Hst.
  - cbn. apply IH. now apply app_step_pdf_selected.
Qed.

(** X10. The App client only ever uploads PDFs: after any session from its
    initial state the selected file, if there is one, has type
    [application/pdf], so whatever a submit then posts is a request whose
    single field holds a PDF. *)
Theorem app_uploads_only_pdfs (actions : list app_action)
    (net : Network App.EvaluationResult) :
  let st := app_session actions app_initial in
  pdf_selected st
  /\ Forall (fun req => exists f, formData req = [("file", f)] /\ is_pdf f)
       (posts (snd (App.submit net st))).
Proof.
  intros st.
  assert (Hst : pdf_selected st)
    by (apply app_session_pdf_selected; exact I).
  split; [exact Hst |].
  unfold pdf_selected in Hst. unfold App.submit.
  destruct (App.file st) as [| | f] eqn:Hf.
  - cbn. constructor.
  - cbn. constructor.
  - rewrite handleUpload_run.
    destruct (settle net (App.uploadRequest f)); cbn;
      (constructor; [exists f; split; [reflexivity | exact Hst]
                    | constructor]).
Qed.

(** ** Formatting numbers *)

Lemma Qfloor_unit x : 0 <= x -> x < 1 -> Qfloor x = 0%Z.
Proof.
  intros H0 H1.
  pose proof (Qfloor_le x) as Hle. pose proof (Qlt_floor x) as Hlt.
  assert (Hup : inject_Z (Qfloor x) < inject_Z 1)
    by (eapply Qle_lt_trans; [exact Hle | exact H1]).
  assert (Hlow : inject_Z 0 < inject_Z (Qfloor x + 1))
    by (eapply Qle_lt_trans; [exact H0 | exact Hlt]).
  rewrite <- Zlt_Qlt in Hup, Hlow. lia.
Qed.

Lemma below_toString_threshold x :
  x < 1 -> Qle_bool (inject_Z (pow10 21)) x = false.
Proof.
  intros Hx. apply Qle_bool_false.
  change (inject_Z (pow10 21)) with (1000000000000000000000 # 1). lra.
Qed.

(** X11. [formatCurrency] answers [N/A] exactly for the values that
    [!value] takes for missing: an absent value, zero and [NaN]. Every other
    value, negative and infinite ones included, is formatted as an amount:
    the rupee sign, the value with one decimal, and "Cr". *)
Theorem formatCurrency_na_iff_falsy (H : Host) (v : opt number) :
  (SE.formatCurrency v = "N/A" <-> falsy_number v)
  /\ ((falsy_number v /\ SE.formatCurrency v = "N/A")
      \/ (exists n, v = val n /\ ~ falsy_number v
            /\ SE.formatCurrency v = "₹" ++ toFixed n 1 ++ "Cr")).
Proof.
  assert (Hiff : SE.formatCurrency v = "N/A" <-> falsy_number v).
  { unfold SE.formatCurrency, falsy_number. split.
    - destruct v as [| | n]; [left; exact I | left; exact I |].
      destruct n as [| neg | q]; cbn.
      + intros _. right. left. reflexivity.
      + intros Hbad. discriminate Hbad.
      + destruct (Qeq_bool q 0) eqn:Hq; cbn.
        * intros _. right. right. exists q. split; [reflexivity |].
          now apply Qeq_bool_iff.
        * intros Hbad. discriminate Hbad.
    - intros [Habs | [-> | (q & -> & Hq)]].
      + destruct v; [reflexivity | reflexivity | elim Habs].
      + reflexivity.
      + cbn. apply Qeq_bool_iff in Hq. now rewrite Hq. }
  split; [exact Hiff |].
  destruct v as [| | n].
  - left. split; [left; exact I | reflexivity].
  - left. split; [left; exact I | reflexivity].
  - destruct (number_truthy n) eqn:Ht.
    + right. exists n. split; [reflexivity |].
      assert (Hfmt : SE.formatCurrency (val n) = "₹" ++ toFixed n 1 ++ "Cr")
        by (unfold SE.formatCurrency; now rewrite Ht).
      split; [| exact Hfmt].
      intros Hf. apply Hiff in Hf. rewrite Hfmt in Hf. discriminate Hf.
    + left.
      assert (Hna : SE.formatCurrency (val n) = "N/A")
        by (unfold SE.formatCurrency; now rewrite Ht).
      split; [now apply Hiff | exact Hna].
Qed.

(** X12. A positive ARR below 0.05 crore is not missing and is shown as
    the amount [₹0.0Cr]: [toFixed(1)] rounds it to zero after the
    truthiness test has let it pass. *)
Theorem formatCurrency_small_positive (H : Host) (q : Q) :
  0 < q -> q < 1 # 20 ->
  SE.formatCurrency (val (Finite q)) = "₹0.0Cr".
Proof.
  intros Hpos Hsmall.
  unfold SE.formatCurrency, number_truthy.
  assert (Hnz : Qeq_bool q 0 = false).
  { destruct (Qeq_bool q 0) eqn:Hz; [| reflexivity].
    apply Qeq_bool_iff in Hz. lra. }
  rewrite Hnz. cbn [negb].
  unfold toFixed. destruct (Qlt_le_dec q 0) as [Hneg | _]; [lra |].
  unfold toFixed_abs. rewrite below_toString_threshold by lra.
  unfold toFixed_digits.
  assert (Hfloor : Qfloor (q * inject_Z (pow10 1) + (1 # 2)) = 0%Z).
  { change (inject_Z (pow10 1)) with (10 # 1). apply Qfloor_unit; lra. }
  rewrite Hfloor. reflexivity.
Qed.

Lemma formatCurrency_small_positive_witness :
  @SE.formatCurrency example_host (val (Finite (4 # 100))) = "₹0.0Cr".
Proof.
  apply (formatCurrency_small_positive example_host (4 # 100));
    reflexivity.
Defined.

(** X13. Zero is not treated alike across the metric cards: a team
    efficiency of zero is shown as [0.00], whereas a sector percentile of
    zero is shown as [N/A]. *)
Theorem zero_efficiency_shown_zero_percentile_hidden (H : Host)
    (e : SE.EvaluationResult) (q p : Q) :
  q == 0 -> p == 0 ->
  SE.team_efficiency (SE.sector_comparison e) = val (Finite q) ->
  SE.arr_percentile (SE.sector_comparison e) = val (Finite p) ->
  SE.team_efficiency_value e = Text "0.00"
  /\ SE.arr_percentile_value e = Text "N/A".
Proof.
  intros Hq Hp He Ha.
  unfold SE.team_efficiency_value, SE.arr_percentile_value.
  rewrite He, Ha. split.
  - assert (Hfix : toFixed (Finite q) 2 = "0.00").
    { unfold toFixed. destruct (Qlt_le_dec q 0) as [Hneg | _]; [lra |].
      unfold toFixed_abs. rewrite below_toString_threshold by lra.
      unfold toFixed_digits.
      assert (Hfloor : Qfloor (q * inject_Z (pow10 2) + (1 # 2)) = 0%Z).
      { change (inject_Z (pow10 2)) with (100 # 1). apply Qfloor_unit; lra. }
      rewrite Hfloor. reflexivity. }
    rewrite Hfix. reflexivity.
  - cbn. apply Qeq_bool_iff in Hp. now rewrite Hp.
Qed.

Lemma zero_efficiency_shown_zero_percentile_hidden_witness :
  let e := {| SE.startup_id := SE.startup_id cashvisory;
              SE.timestamp := SE.timestamp cashvisory;
              SE.extracted_data := SE.extracted_data cashvisory;
              SE.sector_comparison :=
                {| SE.arr_percentile := val (Finite 0);
                   SE.performance_tier := val "Early Stage";
                   SE.team_efficiency := val (Finite 0) |};
              SE.risk_assessment := SE.risk_assessment cashvisory;
              SE.investment_score := SE.investment_score cashvisory;
              SE.investment_recommendation :=
                SE.investment_recommendation cashvisory |} in
  @SE.team_efficiency_value example_host e = Text "0.00"
  /\ SE.arr_percentile_value e = Text "N/A".
Proof.
  intros e.
  assert (H0 : 0 == 0) by reflexivity.
  exact (zero_efficiency_shown_zero_percentile_hidden example_host e 0 0
           H0 H0 eq_refl eq_refl).
Defined.

(** ** The endpoint *)

(** X14. The request goes to [/evaluate] under the configured server. A
    non-empty [REACT_APP_MCP_SERVER_URL] is used as it is; an empty one
    counts as unset; without it a development build posts to
    [http://localhost:8080] and any other build to the placeholder
    [YOUR_MCP_SERVER_URL]. *)
Theorem upload_url_by_configuration (env : SE.ProcessEnv) (f : File) :
  url (SE.uploadRequest env f) = SE.MCP_SERVER_URL env ++ "/evaluate"
  /\ ((exists s, configured env s /\ SE.MCP_SERVER_URL env = s)
      \/ ((forall s, ~ configured env s)
          /\ SE.NODE_ENV env = val "development"
          /\ SE.MCP_SERVER_URL env = "http://localhost:8080")
      \/ ((forall s, ~ configured env s)
          /\ SE.NODE_ENV env <> val "development"
          /\ SE.MCP_SERVER_URL env = "YOUR_MCP_SERVER_URL")).
Proof.
  split; [reflexivity |].
  unfold SE.MCP_SERVER_URL, configured.
  destruct (opt_truthy_string (SE.REACT_APP_MCP_SERVER_URL env)
              (match SE.NODE_ENV env with
               | val m => if m =? "development" then "http://localhost:8080"
                          else "YOUR_MCP_SERVER_URL"
               | _ => "YOUR_MCP_SERVER_URL"
               end)) as [Hyes Hno].
  destruct (opt_truthy string_truthy (SE.REACT_APP_MCP_SERVER_URL env)) eqn:Ht.
  - left. destruct (Hyes eq_refl) as (s & Hs & Hne & Hor).
    exists s. repeat split; assumption.
  - right.
    assert (Hunset : forall s,
              ~ (SE.REACT_APP_MCP_SERVER_URL env = val s /\ s <> ""))
      by exact (Hno eq_refl).
    assert (Hor : or_string (SE.REACT_APP_MCP_SERVER_URL env)
                    (match SE.NODE_ENV env with
                     | val m => if m =? "development"
                                then "http://localhost:8080"
                                else "YOUR_MCP_SERVER_URL"
                     | _ => "YOUR_MCP_SERVER_URL"
                     end)
                  = match SE.NODE_ENV env with
                    | val m => if m =? "development"
                               then "http://localhost:8080"
                               else "YOUR_MCP_SERVER_URL"
                    | _ => "YOUR_MCP_SERVER_URL"
                    end).
    { unfold or_string.
      destruct (SE.REACT_APP_MCP_SERVER_URL env) as [| | s];
        try reflexivity.
      cbn in Ht. now rewrite Ht. }
    rewrite Hor.
    destruct (SE.NODE_ENV env) as [| | m].
    + right. repeat split; [exact Hunset | discriminate].
    + right. repeat split; [exact Hunset | discriminate].
    + destruct (String.eqb_spec m "development") as [Hm | Hm].
      * left. rewrite Hm. repeat split. exact Hunset.
      * right. repeat split; [exact Hunset |].
        intros [= Heq]. contradiction.
Qed.

(** ** Error display *)

(** X15. When the connection is refused, the error display carries the help
    block about the backend server next to the message. *)
Theorem refused_shows_help env net st f e :
  SE.file st = val f ->
  settle net (SE.uploadRequest env f) = inl e ->
  refused e ->
  let st' := snd (fst (SE.submit env net st)) in
  SE.error st'
  = val "Cannot connect to the server. Please check if the backend is running."
  /\ count_class "error-section" (SE.error_display st') = 1%nat
  /\ count_class "error-help" (SE.error_display st') = 1%nat.
Proof.
  intros Hf He Hr st'. subst st'.
  rewrite (submit_failure env net st f e Hf He).
  assert (Hm : SE.errorMessage e
               = "Cannot connect to the server. Please check if the backend is running.").
  { unfold SE.errorMessage. apply refused_spec in Hr. now rewrite Hr. }
  rewrite Hm. repeat split.
Qed.

Lemma refused_shows_help_witness :
  let st' := snd (fst (SE.submit dev_env (net_rejecting connection_refused)
                         deck_selected)) in
  count_class "error-help" (SE.error_display st') = 1%nat.
Proof.
  intros st'.
  exact (proj2 (proj2 (refused_shows_help dev_env
                         (net_rejecting connection_refused) deck_selected deck
                         connection_refused eq_refl eq_refl eq_refl))).
Defined.

(** X16. The App client has one rule for a failed submit: a non-empty
    [detail] of the response body is shown verbatim, whatever the status or
    error code; every other failure shows the fixed message "Failed to
    process PDF. Please try again.". *)
Theorem app_failure_message net st f e :
  App.file st = val f ->
  settle net (App.uploadRequest f) = inl e ->
  let st' := snd (fst (App.submit net st)) in
  App.evaluation st' = App.evaluation st
  /\ App.loading st' = false
  /\ ((exists s, has_detail e s /\ App.error st' = val s)
      \/ ((forall s, ~ has_detail e s)
          /\ App.error st' = val "Failed to process PDF. Please try again.")).
Proof.
  intros Hf He st'. subst st'.
  rewrite (app_submit_failure net st f e Hf He).
  split; [reflexivity |]. split; [reflexivity |].
  cbn [App.error app_failed App.setLoading App.setError].
  unfold App.uploadErrorMessage.
  change (match response e with
          | val r => match data r with
                     | val d => detail d
                     | _ => undefined
                     end
          | _ => undefined
          end) with (SE.response_data_detail e).
  destruct (opt_truthy_string (SE.response_data_detail e)
              "Failed to process PDF. Please try again.") as [Hyes Hno].
  destruct (opt_truthy string_truthy (SE.response_data_detail e)) eqn:Ht.
  - left. destruct (Hyes eq_refl) as (s & Hs & Hne & ->).
    exists s. split; [| reflexivity]. now apply has_detail_spec.
  - right. split.
    + intros s Hs. apply has_detail_spec in Hs. exact (Hno eq_refl s Hs).
    + f_equal. unfold or_string.
      destruct (SE.response_data_detail e) as [| | s]; try reflexivity.
      cbn in Ht. now rewrite Ht.
Qed.

Lemma app_failure_message_witness :
  let st' := snd (fst (App.submit (net_rejecting unauthorized_with_detail)
                         app_deck_selected)) in
  App.evaluation st' = App.evaluation app_deck_selected
  /\ App.loading st' = false
  /\ ((exists s, has_detail unauthorized_with_detail s
                 /\ App.error st' = val s)
      \/ ((forall s, ~ has_detail unauthorized_with_detail s)
          /\ App.error st'
             = val "Failed to process PDF. Please try again.")).
Proof.
  exact (app_failure_message (net_rejecting unauthorized_with_detail)
           app_deck_selected deck unauthorized_with_detail eq_refl eq_refl).
Defined.

(** ** Score colours of the App client *)

(** X17. [getScoreColor] of the App client has three bands: [#4CAF50] from
    80, [#FF9800] from 60 to below 80, and [#F44336] below 60 (and for
    [NaN]). *)
Theorem app_score_color_three_bands (q : Q) :
  (App.getScoreColor (Finite q) = "#4CAF50" <-> 80 <= q)
  /\ (App.getScoreColor (Finite q) = "#FF9800" <-> 60 <= q /\ q < 80)
  /\ (App.getScoreColor (Finite q) = "#F44336" <-> q < 60)
  /\ App.getScoreColor NaN = "#F44336"
  /\ App.getScoreColor (Infinity false) = "#4CAF50"
  /\ App.getScoreColor (Infinity true) = "#F44336".
Proof.
  unfold App.getScoreColor, ge, of_Z.
  destruct (Qle_bool (inject_Z 80) q) eqn:E80;
    [apply Qle_bool_iff in E80 | apply Qle_bool_false in E80];
  (destruct (Qle_bool (inject_Z 60) q) eqn:E60;
    [apply Qle_bool_iff in E60 | apply Qle_bool_false in E60]);
  change (inject_Z 80) with 80 in *; change (inject_Z 60) with 60 in *;
  repeat split; try discriminate; try reflexivity; intros; try assumption;
  try (exfalso; lra).
Qed.

(** ** Lists in the results section *)

Lemma recommendation_items_nth recs : forall start i rec,
  nth_error recs i = Some rec ->
  nth_error (SE.recommendation_items start recs) i
  = Some (el "div" "recommendation-item"
            [ el "span" "recommendation-number"
                [Number (of_Z (start + Z.of_nat i + 1))];
              el "span" "recommendation-text" [Text rec] ]).
Proof.
  induction recs as [| r recs IH]; intros start [| i] rec Hnth;
    try discriminate.
  - injection Hnth as ->. cbn.
    replace (start + 0 + 1)%Z with (start + 1)%Z by lia. reflexivity.
  - cbn in Hnth. cbn [SE.recommendation_items nth_error].
    rewrite (IH (start + 1)%Z i rec Hnth).
    replace (start + 1 + Z.of_nat i + 1)%Z
      with (start + Z.of_nat (S i) + 1)%Z by lia.
    reflexivity.
Qed.

Lemma recommendation_items_length recs : forall start,
  length (SE.recommendation_items start recs) = length recs.
Proof.
  induction recs as [| r recs IH]; intros start; cbn; [reflexivity |].
  now rewrite IH.
Qed.

(** X18. The due-diligence recommendations are listed in the order of the
    response, one item each, numbered from 1: the item at position [i]
    (from 0) shows the number [i + 1] and the text of the [i]-th
    recommendation. *)
Theorem recommendations_numbered_in_order (recs : list string) (i : nat)
    (rec : string) :
  nth_error recs i = Some rec ->
  nth_error (SE.recommendation_items 0 recs) i
  = Some (el "div" "recommendation-item"
            [ el "span" "recommendation-number"
                [Number (of_Z (Z.of_nat i + 1))];
              el "span" "recommendation-text" [Text rec] ])
  /\ length (SE.recommendation_items 0 recs) = length recs.
Proof.
  intros Hnth. split.
  - exact (recommendation_items_nth recs 0%Z i rec Hnth).
  - apply recommendation_items_length.
Qed.

Lemma recommendations_numbered_in_order_witness :
  nth_error (SE.recommendation_items 0 ["first"; "second"; "third"]) 2
  = Some (el "div" "recommendation-item"
            [ el "span" "recommendation-number" [Number (of_Z 3)];
              el "span" "recommendation-text" [Text "third"] ]).
Proof.
  exact (proj1 (recommendations_numbered_in_order
                  ["first"; "second"; "third"] 2 "third" eq_refl)).
Defined.

(** X19. The red-flag list, the recommendation list and the key-metrics
    table are each left out of the results section exactly when the response
    has no such list or an empty one. *)
Theorem empty_lists_are_left_out (H : Host) (e : SE.EvaluationResult) :
  (SE.red_flags_section e = Nothing
   <-> absent (SE.red_flags (SE.risk_assessment e))
       \/ SE.red_flags (SE.risk_assessment e) = val [])
  /\ (SE.recommendations_section e = Nothing
      <-> absent (SE.recommendations (SE.risk_assessment e))
          \/ SE.recommendations (SE.risk_assessment e) = val [])
  /\ (SE.key_metrics_section e = Nothing
      <-> absent (SE.key_metrics (SE.extracted_data e))
          \/ SE.key_metrics (SE.extracted_data e) = val []).
Proof.
  unfold SE.red_flags_section, SE.recommendations_section,
    SE.key_metrics_section.
  repeat split;
    match goal with
    | |- context [match ?o with _ => _ end] => destruct o as [| | [| x l]]
    end; cbn; try tauto; try discriminate;
    intros [[] | Hbad]; discriminate Hbad.
Qed.

(** ** Dropping files *)

(** X21. A drop on StartupEvaluator looks at the first file only. Without
    one, nothing but the drag highlight changes. A PDF or an image is
    stored and the error cleared; anything else sets the error and leaves
    the selected file as it was, whatever else was dropped with it. *)
Theorem drop_looks_at_first_file (files : opt (list File)) (st : SE.State) :
  let st' := final_state (SE.handleDrop files) st in
  SE.dragActive st' = false
  /\ SE.evaluation st' = SE.evaluation st
  /\ (((absent files \/ files = val [])
       /\ SE.file st' = SE.file st /\ SE.error st' = SE.error st)
      \/ (exists f rest, files = val (f :: rest) /\ acceptable f
            /\ SE.file st' = val f /\ SE.error st' = null)
      \/ (exists f rest, files = val (f :: rest) /\ ~ acceptable f
            /\ SE.file st' = SE.file st
            /\ SE.error st' = val "Please upload a PDF or image file")).
Proof.
  unfold final_state.
  destruct files as [| | [| f rest]].
  - cbn. repeat split. left. repeat split. left. exact I.
  - cbn. repeat split. left. repeat split. left. exact I.
  - cbn. repeat split. left. repeat split. right. reflexivity.
  - destruct (String.eqb_spec (type f) "application/pdf") as [Hp | Hp].
    + rewrite (handleDrop_accepts f rest st (or_introl Hp)). cbn.
      repeat split. right. left. exists f, rest.
      repeat split. left. exact Hp.
    + destruct (startsWith (type f) "image/") eqn:Hi.
      * rewrite (handleDrop_accepts f rest st (or_intror Hi)). cbn.
        repeat split. right. left. exists f, rest.
        repeat split. right. exact Hi.
      * rewrite (handleDrop_rejects f rest st Hp Hi). cbn.
        repeat split. right. right. exists f, rest.
        repeat split. intros [Hq | Hq]; [contradiction | congruence].
Qed.

(** X22. The two clients disagree on images: dropping a file whose type
    starts with [image/] selects it in StartupEvaluator, and is rejected
    with "Please upload a PDF file only." by both selection paths of the App
    client. *)
Theorem clients_disagree_on_images (f : File) (rest : list File)
    (st : SE.State) (stA : App.State) :
  startsWith (type f) "image/" = true ->
  SE.file (final_state (SE.handleDrop (val (f :: rest))) st) = val f
  /\ SE.error (final_state (SE.handleDrop (val (f :: rest))) st) = null
  /\ App.file (final_state (App.handleDrop (val (f :: rest))) stA)
     = App.file stA
  /\ App.error (final_state (App.handleDrop (val (f :: rest))) stA)
     = val "Please upload a PDF file only."
  /\ App.file (final_state (App.handleFileSelect (val (f :: rest))) stA)
     = App.file stA
  /\ App.error (final_state (App.handleFileSelect (val (f :: rest))) stA)
     = val "Please upload a PDF file only.".
Proof.
  intros Hi.
  assert (Hp : type f <> "application/pdf").
  { intros Heq. rewrite Heq in Hi. discriminate Hi. }
  destruct (app_handlers_reject f rest stA Hp) as [Hd Hs].
  unfold final_state.
  rewrite (handleDrop_accepts f rest st (or_intror Hi)), Hd, Hs.
  repeat split.
Qed.

Lemma clients_disagree_on_images_witness :
  SE.file (final_state (SE.handleDrop (val [logo])) SE.initial) = val logo
  /\ App.error (final_state (App.handleDrop (val [logo])) app_initial)
     = val "Please upload a PDF file only.".
Proof.
  destruct (clients_disagree_on_images logo [] SE.initial app_initial
              eq_refl) as (Hf & _ & _ & He & _).
  split; [exact Hf | exact He].
Defined.

(** ** Sample evaluations *)

(** X23. Viewing a sample evaluation and going back returns to the state
    one started from exactly when no file was selected (and the sample view
    was the one on display): the back button also discards a file selected
    before the sample was opened. *)
Theorem view_sample_and_back_iff (sample : SE.EvaluationResult)
    (st : SE.State) :
  se_session [SeViewSample sample; SeBack] st = st
  <-> SE.file st = null /\ SE.evaluation st = null
      /\ SE.showSampleData st = true.
Proof.
  cbn. destruct st as [file evaluation loading error dragActive step shown].
  cbn. split.
  - intros [= <- <- <-]. auto.
  - intros (-> & -> & ->). reflexivity.
Qed.

(** ** Slow answers *)

(** X24. An answer that arrives within the two minutes of the timeout is
    displayed however long the stage timers and the network took: the
    stage timers have all elapsed before the request is sent, the response
    becomes the evaluation and the results section is shown. *)
Theorem answer_within_timeout_is_shown (H : Host) env net st f d :
  SE.file st = val f ->
  outcome (net (SE.uploadRequest env f)) = inr d ->
  (latency (net (SE.uploadRequest env f)) < 120000)%Z ->
  let st' := snd (fst (SE.submit env net st)) in
  SE.evaluation st' = val d
  /\ SE.loading st' = false
  /\ SE.error st' = null
  /\ exists children,
       SE.results_section st' = el "section" "results-section" children.
Proof.
  intros Hf Hd Hlat st'. subst st'.
  assert (Hs : settle net (SE.uploadRequest env f) = inr d).
  { unfold settle.
    assert (Hb : (timeout (SE.uploadRequest env f)
                  <=? latency (net (SE.uploadRequest env f)))%Z = false)
      by (apply Z.leb_gt; cbn; exact Hlat).
    rewrite Hb, Bool.andb_false_r. exact Hd. }
  unfold SE.submit. rewrite Hf, handleFileUpload_run, Hs. cbn.
  repeat split. eexists. reflexivity.
Qed.

Lemma answer_within_timeout_is_shown_witness :
  let net : Network SE.EvaluationResult :=
    fun _ => {| latency := 119999; outcome := inr cashvisory |} in
  SE.evaluation (snd (fst (SE.submit dev_env net deck_selected)))
  = val cashvisory.
Proof.
  intros net.
  exact (proj1 (answer_within_timeout_is_shown example_host dev_env net
                  deck_selected deck cashvisory eq_refl eq_refl eq_refl)).
Defined.

(** ** A failed submit *)

(** X26. A failed submit changes three cells only: the error becomes the
    message of the failure, loading ends and the processing step returns to
    0; the evaluation, the selected file, the drag highlight and the
    sample-data flag are as they were before the submit. *)
Theorem failed_submit_changes_three_cells env net st f e :
  SE.file st = val f ->
  settle net (SE.uploadRequest env f) = inl e ->
  snd (fst (SE.submit env net st))
  = {| SE.file := SE.file st;
       SE.evaluation := SE.evaluation st;
       SE.loading := false;
       SE.error := val (SE.errorMessage e);
       SE.dragActive := SE.dragActive st;
       SE.processingStep := 0;
       SE.showSampleData := SE.showSampleData st |}.
Proof.
  intros Hf He. rewrite (submit_failure env net st f e Hf He). reflexivity.
Qed.

Lemma failed_submit_changes_three_cells_witness :
  let st := SE.setEvaluation (val we360ai) deck_selected in
  snd (fst (SE.submit dev_env (net_rejecting server_error) st))
  = {| SE.file := val deck;
       SE.evaluation := val we360ai;
       SE.loading := false;
       SE.error := val "Request failed with status code 500";
       SE.dragActive := false;
       SE.processingStep := 0;
       SE.showSampleData := true |}.
Proof.
  exact (failed_submit_changes_three_cells dev_env
           (net_rejecting server_error)
           (SE.setEvaluation (val we360ai) deck_selected) deck server_error
           eq_refl eq_refl).
Defined.
